(** * Talonix rhythm generator: pattern synthesis, sample resolution,
      beat mixing, loop assembly and the MIDI event timeline.

    A shallow embedding of [rythm-g.py].  Python values are modelled as
    follows: [int] as [Z], [float] as exact rationals [Q], [str] as
    [string], lists as [list], insertion-ordered [dict]s as association
    lists, exceptions as the [Raise] branch of [result].  The [random]
    module is an explicit generator state threaded through the code that
    draws from it.

    What lies outside the program is modelled at its interface: an
    [AudioSegment] of the audio library is the record of the calls that
    built it, with its duration in milliseconds and its channel count; the
    file system is the listing of [samples/]; string similarity is a
    function of the environment.  Logging, console output and preview
    playback do not reach any returned value and are left out. *)

From Stdlib Require Import ZArith QArith List String Ascii Bool Lia.
Import ListNotations.
Local Close Scope Q_scope.
Local Open Scope string_scope.
Local Open Scope Z_scope.

(** ** Python runtime layer *)

Inductive Exception : Type :=
| ZeroDivisionError
| IndexError
| ValueError
| KeyError
| FileNotFoundError
| NotADirectoryError.

Inductive result (A : Type) : Type :=
| Ok (a : A)
| Raise (e : Exception).

Arguments Ok {A} a.
Arguments Raise {A} e.

Definition rbind {A B : Type} (r : result A) (k : A -> result B) : result B :=
  match r with
  | Ok a => k a
  | Raise e => Raise e
  end.

(** [l[i]] with Python's negative indices. *)
Definition py_index (len i : Z) : option nat :=
  let j := if i <? 0 then i + len else i in
  if (0 <=? j) && (j <? len) then Some (Z.to_nat j) else None.

Fixpoint list_update {A : Type} (l : list A) (k : nat) (v : A) : list A :=
  match l, k with
  | [], _ => []
  | _ :: t, O => v :: t
  | h :: t, S k' => h :: list_update t k' v
  end.

Definition py_getitem {A : Type} (d : A) (l : list A) (i : Z) : result A :=
  match py_index (Z.of_nat (List.length l)) i with
  | Some k => Ok (nth k l d)
  | None => Raise IndexError
  end.

Definition py_setitem {A : Type} (l : list A) (i : Z) (v : A) : result (list A) :=
  match py_index (Z.of_nat (List.length l)) i with
  | Some k => Ok (list_update l k v)
  | None => Raise IndexError
  end.

(** [l[:n]] *)
Definition py_slice_to {A : Type} (l : list A) (n : Z) : list A :=
  if n <? 0 then firstn (Z.to_nat (Z.of_nat (List.length l) + n)) l
  else firstn (Z.to_nat n) l.

(** [l * k] *)
Definition py_list_mul {A : Type} (l : list A) (k : Z) : list A :=
  List.concat (repeat l (Z.to_nat k)).

(** [range(n)] *)
Definition py_range1 (n : Z) : list Z :=
  map Z.of_nat (seq 0 (Z.to_nat n)).

(** [range(start, stop, step)]; a zero step raises [ValueError]. *)
Definition py_range (start stop step : Z) : result (list Z) :=
  if step =? 0 then Raise ValueError
  else
    let count :=
      if 0 <? step then (stop - start + step - 1) / step
      else (start - stop - step - 1) / (- step) in
    Ok (map (fun k => start + Z.of_nat k * step) (seq 0 (Z.to_nat count))).

(** [a / b] on floats *)
Definition py_truediv (a b : Q) : result Q :=
  if Qeq_bool b 0 then Raise ZeroDivisionError else Ok (a / b)%Q.

(** [int(x)]: truncation toward zero *)
Definition py_int (x : Q) : Z := Z.quot (Qnum x) (Zpos (Qden x)).

Definition Qltb (x y : Q) : bool := negb (Qle_bool y x).

(** ** The random source *)

Record RandomState : Type := mkRandom {
  draws : nat -> Z;
  cursor : nat
}.

Definition M (A : Type) : Type := RandomState -> result (A * RandomState).

Definition ret {A : Type} (a : A) : M A := fun st => Ok (a, st).

Definition bind {A B : Type} (m : M A) (k : A -> M B) : M B :=
  fun st =>
    match m st with
    | Ok (a, st') => k a st'
    | Raise e => Raise e
    end.

Definition lift {A : Type} (r : result A) : M A :=
  fun st =>
    match r with
    | Ok a => Ok (a, st)
    | Raise e => Raise e
    end.

Notation "x <- m ;; k" := (bind m (fun x => k))
  (at level 61, m at next level, right associativity).

Definition advance (st : RandomState) : RandomState :=
  mkRandom (draws st) (S (cursor st)).

(** [random.random()]: a float in [0, 1) with 53 bits *)
Definition random_random : M Q :=
  fun st => Ok (Qmake (draws st (cursor st) mod 2 ^ 53) (2 ^ 53), advance st).

(** [random.choice(seq)] *)
Definition random_choice {A : Type} (d : A) (seq : list A) : M A :=
  fun st =>
    match seq with
    | [] => Raise IndexError
    | _ => Ok (nth (Z.to_nat (draws st (cursor st) mod Z.of_nat (List.length seq))) seq d,
               advance st)
    end.

(** A list comprehension [[f(x) for x in xs]] whose body draws random numbers. *)
Fixpoint comprehension {A B : Type} (f : A -> M B) (xs : list A) : M (list B) :=
  match xs with
  | [] => ret []
  | x :: xs' =>
      y <- f x ;;
      ys <- comprehension f xs' ;;
      ret (y :: ys)
  end.

(** [for i in idxs: pattern[i] = v] *)
Fixpoint setitem_each {A : Type} (l : list A) (idxs : list Z) (v : A) : result (list A) :=
  match idxs with
  | [] => Ok l
  | i :: idxs' => rbind (py_setitem l i v) (fun l' => setitem_each l' idxs' v)
  end.

(** ** Pattern generation *)

Definition COMPLEXITY_LEVELS : list string := ["simple"; "medium"; "complex"].

Definition extend_base_pattern (base_pattern : list Z) (pattern_length : Z)
  : result (list Z) :=
  let len := Z.of_nat (List.length base_pattern) in
  if pattern_length <=? len then Ok (py_slice_to base_pattern pattern_length)
  else if len =? 0 then Raise ZeroDivisionError
  else Ok (py_list_mul base_pattern (pattern_length / len)
           ++ py_slice_to base_pattern (pattern_length mod len))%list.

Definition generate_pattern (complexity : string) (pattern_length : Z)
    (base_pattern : list Z) (fill_frequency : Q) : M (list Z) :=
  base_pattern <- lift (extend_base_pattern base_pattern pattern_length) ;;
  pattern <-
    (if (complexity =? "simple")%string then
       comprehension
         (fun _ => r <- random_random ;;
                   ret (if Qltb r (3 # 10) then 1 else 0))
         (py_range1 pattern_length)
     else if (complexity =? "medium")%string then
       pattern <- comprehension
         (fun i => r <- random_random ;;
                   if Qltb r (7 # 10) then lift (py_getitem 0 base_pattern i)
                   else random_choice 0 [0; 1])
         (py_range1 pattern_length) ;;
       pattern <- lift (py_setitem pattern 0 1) ;;
       lift (py_setitem pattern (pattern_length / 2) 1)
     else
       pattern <- comprehension
         (fun i => r <- random_random ;;
                   if Qltb r (5 # 10) then lift (py_getitem 0 base_pattern i)
                   else random_choice 0 [0; 1])
         (py_range1 pattern_length) ;;
       q <- lift (py_truediv 1 fill_frequency) ;;
       idxs <- lift (py_range (pattern_length - 1) 0 (- py_int q)) ;;
       lift (setitem_each pattern idxs 1)) ;;
  lift (py_setitem pattern 0 1).

(** ** Dictionaries (insertion-ordered, keyed by strings) *)

Definition dict (V : Type) : Type := list (string * V).

Fixpoint dict_get {V : Type} (d : dict V) (k : string) : option V :=
  match d with
  | [] => None
  | (k', v) :: d' => if (k' =? k)%string then Some v else dict_get d' k
  end.

(** [d.get(k, default)] *)
Definition dict_get_default {V : Type} (d : dict V) (k : string) (default : V) : V :=
  match dict_get d k with
  | Some v => v
  | None => default
  end.

(** [d[k]] *)
Definition dict_getitem {V : Type} (d : dict V) (k : string) : result V :=
  match dict_get d k with
  | Some v => Ok v
  | None => Raise KeyError
  end.

(** [k in d] *)
Definition dict_contains {V : Type} (d : dict V) (k : string) : bool :=
  match dict_get d k with
  | Some _ => true
  | None => false
  end.

(** [d[k] = v]: an existing key keeps its position, a new key goes last. *)
Fixpoint dict_set {V : Type} (d : dict V) (k : string) (v : V) : dict V :=
  match d with
  | [] => [(k, v)]
  | (k', v') :: d' =>
      if (k' =? k)%string then (k', v) :: d' else (k', v') :: dict_set d' k v
  end.

Definition dict_keys {V : Type} (d : dict V) : list string := map fst d.

(** [l.index(x)] *)
Fixpoint list_index (x : string) (l : list string) : result Z :=
  match l with
  | [] => Raise ValueError
  | y :: l' =>
      if (y =? x)%string then Ok 0
      else rbind (list_index x l') (fun i => Ok (i + 1))
  end.

(** [x in l] *)
Definition list_contains (x : string) (l : list string) : bool :=
  existsb (String.eqb x) l.

(** [l.remove(x)]: drops the first occurrence *)
Fixpoint list_remove (x : string) (l : list string) : list string :=
  match l with
  | [] => []
  | y :: l' => if (y =? x)%string then l' else y :: list_remove x l'
  end.

(** ** Constants *)

Definition SAMPLE_RATE : Z := 44100.
Definition MIN_BPM : Z := 20.
Definition MAX_BPM : Z := 300.
Definition MIN_SWING : Z := -50.
Definition MAX_SWING : Z := 50.
Definition DEFAULT_VOLUME : Q := 80.

Definition NOTE_TYPES : dict Q :=
  [("whole", 4 # 1); ("half", 2 # 1); ("quarter", 1 # 1); ("eighth", 1 # 2);
   ("sixteenth", 1 # 4); ("thirty-second", 1 # 8)]%Q.

Definition TIME_SIGNATURES : list string := ["4/4"; "3/4"; "6/8"].
Definition SUBDIVISIONS : list string := ["straight"; "triplet"].

Definition INSTRUMENT_TO_FOLDER : dict string :=
  [("kick", "kicks"); ("snare", "snares"); ("hihat", "hihats"); ("bass", "bass");
   ("synth", "synth"); ("guitar", "guitar"); ("clap", "clap");
   ("tambourine", "tambourine"); ("percussion", "percussion")].

Definition AVAILABLE_INSTRUMENTS : list string := dict_keys INSTRUMENT_TO_FOLDER.

Record StyleConfig : Type := mkStyle {
  style_bpm : Z;
  style_pattern : dict (list Z);
  style_swing : Z;
  style_complexity : string;
  style_time_signature : string
}.

Definition STYLE_CONFIGS : dict StyleConfig :=
  [("hiphop", mkStyle 85
      [("kick", [1; 0; 1; 0; 1; 0; 1; 0]);
       ("snare", [0; 0; 0; 0; 1; 0; 0; 0]);
       ("hihat", [1; 1; 1; 1; 1; 1; 1; 1]);
       ("bass", [1; 0; 0; 0; 1; 0; 0; 0]);
       ("synth", [0; 1; 0; 1; 0; 1; 0; 1]);
       ("guitar", [0; 0; 1; 0; 0; 0; 1; 0]);
       ("percussion", [0; 0; 0; 1; 0; 0; 0; 1])]
      20 "medium" "4/4");
   ("lofi", mkStyle 70
      [("kick", [1; 0; 0; 0; 1; 0; 0; 0]);
       ("snare", [0; 0; 0; 0; 1; 0; 0; 0]);
       ("hihat", [1; 0; 1; 0; 1; 0; 1; 0]);
       ("bass", [1; 0; 0; 0; 0; 0; 0; 0]);
       ("synth", [1; 0; 1; 0; 1; 0; 1; 0]);
       ("guitar", [0; 0; 0; 0; 1; 0; 0; 0]);
       ("percussion", [0; 0; 0; 1; 0; 0; 0; 0])]
      10 "simple" "4/4");
   ("edm", mkStyle 128
      [("kick", [1; 0; 1; 0; 1; 0; 1; 0]);
       ("snare", [0; 0; 0; 0; 1; 0; 0; 0]);
       ("hihat", [1; 1; 1; 1; 1; 1; 1; 1]);
       ("bass", [1; 1; 1; 1; 1; 1; 1; 1]);
       ("synth", [1; 0; 0; 0; 1; 0; 0; 0]);
       ("guitar", [0; 0; 0; 0; 0; 0; 0; 0]);
       ("percussion", [0; 0; 0; 0; 0; 0; 0; 1])]
      0 "complex" "4/4");
   ("pop", mkStyle 120
      [("kick", [1; 0; 1; 0; 1; 0; 1; 0]);
       ("snare", [0; 0; 0; 0; 1; 0; 0; 0]);
       ("hihat", [1; 1; 1; 1; 1; 1; 1; 1]);
       ("bass", [1; 0; 0; 0; 1; 0; 0; 0]);
       ("synth", [1; 0; 1; 0; 1; 0; 1; 0]);
       ("guitar", [0; 1; 0; 1; 0; 1; 0; 1]);
       ("percussion", [0; 0; 0; 1; 0; 0; 0; 1])]
      5 "medium" "4/4")].

(** ** Audio buffers

    The audio library's [AudioSegment] is kept symbolic: a value records
    the library calls that built it.  Durations are the library's [len],
    in milliseconds. *)

Inductive AudioSegment : Type :=
| Silent (duration frame_rate : Z)
| Tone (frequency duration_ms : Z)
| FromWav (path : string) (duration native_channels : Z)
| SetChannels (a : AudioSegment) (n : Z)
| SetFrameRate (a : AudioSegment) (frame_rate : Z)
| SetSampleWidth (a : AudioSegment) (width : Z)
| ApplyGain (a : AudioSegment) (db : Q)
| Pan (a : AudioSegment) (left_gain right_gain : Q)
| Append (a b : AudioSegment)
| SliceTo (a : AudioSegment) (ms : Z)
| Overlay (a seg : AudioSegment) (gain_during_overlay : option Q)
| Normalize (a : AudioSegment).

(** [len(audio)] *)
Fixpoint len (audio : AudioSegment) : Z :=
  match audio with
  | Silent d _ => Z.max 0 d
  | Tone _ d => Z.max 0 d
  | FromWav _ d _ => Z.max 0 d
  | SetChannels a _ | SetFrameRate a _ | SetSampleWidth a _ => len a
  | ApplyGain a _ | Pan a _ _ | Normalize a => len a
  | Append a b => len a + len b
  | SliceTo a ms => if ms <? 0 then Z.max 0 (len a + ms) else Z.min ms (len a)
  | Overlay a _ _ => len a
  end.

(** [audio.channels] *)
Fixpoint channels (audio : AudioSegment) : Z :=
  match audio with
  | Silent _ _ => 1
  | Tone _ _ => 1
  | FromWav _ _ c => c
  | SetChannels _ n => n
  | SetFrameRate a _ | SetSampleWidth a _ => channels a
  | ApplyGain a _ | Pan a _ _ | Normalize a | SliceTo a _ => channels a
  | Append a b => Z.max (channels a) (channels b)
  | Overlay a seg _ => Z.max (channels a) (channels seg)
  end.

(** Decibels added on top of the buffer the gain calls started from. *)
Fixpoint gain_db (audio : AudioSegment) : Q :=
  match audio with
  | ApplyGain a db => (gain_db a + db)%Q
  | _ => 0%Q
  end.

(** [AudioSegment.silent(duration=...)], at the library's default frame rate *)
Definition AudioSegment_silent (duration : Z) : AudioSegment := Silent duration 11025.

(** ** The environment: sample files, optional libraries, string similarity *)

Record SampleFile : Type := mkFile {
  file_name : string;
  (** duration and channel count when the file decodes, [None] when
      [from_wav] or the format conversion raises *)
  file_wav : option (Z * Z)
}.

Record DirEntry : Type := mkEntry {
  entry_name : string;
  entry_is_dir : bool;
  entry_files : list SampleFile
}.

(** What the path [samples] is in the working directory. *)
Inductive SamplesPath : Type :=
| NoSuchPath
| RegularFile
| Directory (entries : list DirEntry).

Record Environment : Type := mkEnv {
  samples_listing : SamplesPath;
  NUMPY_AVAILABLE : bool;
  (** [difflib.SequenceMatcher(None, a, b).ratio()] *)
  ratio : string -> string -> Q
}.

Definition lower_ascii (c : ascii) : ascii :=
  let n := nat_of_ascii c in
  if (65 <=? n)%nat && (n <=? 90)%nat then ascii_of_nat (n + 32) else c.

(** [s.lower()] *)
Fixpoint lower (s : string) : string :=
  match s with
  | EmptyString => EmptyString
  | String c s' => String (lower_ascii c) (lower s')
  end.

(** [s.endswith(suffix)] *)
Definition endswith (s suffix : string) : bool :=
  let ls := String.length s in
  let lx := String.length suffix in
  (lx <=? ls)%nat && (substring (ls - lx) lx s =? suffix)%string.

(** [os.listdir(os.path.join("samples", name))] *)
Fixpoint os_listdir_in (entries : list DirEntry) (name : string) : result (list SampleFile) :=
  match entries with
  | [] => Raise FileNotFoundError
  | e :: entries' =>
      if (entry_name e =? name)%string then
        if entry_is_dir e then Ok (entry_files e) else Raise NotADirectoryError
      else os_listdir_in entries' name
  end.

Definition better (word : string) (r : string -> string -> Q) (x y : string) : bool :=
  Qltb (r y word) (r x word)
  || (Qeq_bool (r x word) (r y word)
      && match String.compare x y with Gt => true | _ => false end).

Fixpoint best_match (word : string) (r : string -> string -> Q)
    (candidates : list string) (best : option string) : option string :=
  match candidates with
  | [] => best
  | x :: candidates' =>
      best_match word r candidates'
        (match best with
         | None => Some x
         | Some y => if better word r x y then Some x else Some y
         end)
  end.

(** [get_close_matches(word, possibilities, n=1, cutoff=cutoff)] *)
Definition get_close_matches (r : string -> string -> Q) (word : string)
    (possibilities : list string) (cutoff : Q) : list string :=
  match best_match word r
          (filter (fun x => Qle_bool cutoff (r x word)) possibilities) None with
  | Some x => [x]
  | None => []
  end.

(** ** Sample library *)

Definition generate_synthetic_tone (env : Environment) (frequency duration_ms : Z)
  : AudioSegment :=
  if negb (NUMPY_AVAILABLE env) then AudioSegment_silent duration_ms
  else Tone frequency duration_ms.

Definition create_silent_segment (duration_ms : Z) : AudioSegment :=
  Silent duration_ms SAMPLE_RATE.

(** The fallback every failing branch of [load_samples] returns. *)
Definition synthetic_fallback (env : Environment) (instrument : string)
  : result (list AudioSegment) :=
  rbind (list_index instrument AVAILABLE_INSTRUMENTS) (fun idx =>
  Ok [generate_synthetic_tone env (200 + 100 * idx) 200]).

(** The body of the [for file in os.listdir(folder_path)] loop. *)
Fixpoint load_files (folder_path : string) (files : list SampleFile)
    (samples : list AudioSegment) : list AudioSegment :=
  match files with
  | [] => samples
  | f :: files' =>
      if endswith (lower (file_name f)) ".wav" then
        match file_wav f with
        | Some (d, c) =>
            load_files folder_path files'
              (samples ++
               [SetSampleWidth
                  (SetFrameRate
                     (SetChannels (FromWav (folder_path ++ "/" ++ file_name f) d c) 1)
                     SAMPLE_RATE) 2])%list
        | None => load_files folder_path files' samples
        end
      else load_files folder_path files' samples
  end.

Definition load_samples (env : Environment) (instrument : string)
  : result (list AudioSegment) :=
  let samples_dir := "samples" in
  let folder_name := lower (dict_get_default INSTRUMENT_TO_FOLDER instrument instrument) in
  match samples_listing env with
  | NoSuchPath => synthetic_fallback env instrument
  | RegularFile => Raise NotADirectoryError
  | Directory entries =>
      let available_folders :=
        map (fun e => lower (entry_name e)) (filter entry_is_dir entries) in
      let resolved :=
        if negb (list_contains folder_name available_folders) then
          match get_close_matches (ratio env) folder_name available_folders (8 # 10) with
          | corrected_folder :: _ => Some corrected_folder
          | [] => None
          end
        else Some folder_name in
      match resolved with
      | None => synthetic_fallback env instrument
      | Some folder_name =>
          let folder_path := samples_dir ++ "/" ++ folder_name in
          rbind (os_listdir_in entries folder_name) (fun files =>
          match files with
          | [] => synthetic_fallback env instrument
          | _ =>
              match load_files folder_path files [] with
              | [] => synthetic_fallback env instrument
              | samples => Ok samples
              end
          end)
      end
  end.

Definition choose_sample (samples : list AudioSegment) : M AudioSegment :=
  match samples with
  | [] => ret (create_silent_segment 200)
  | _ => random_choice (create_silent_segment 200) samples
  end.

(** ** Effects *)

Definition apply_swing (beat_idx swing_percent beat_duration_ms : Z) : Q :=
  if (swing_percent =? 0) || (beat_idx mod 2 =? 0) then 0%Q
  else ((inject_Z swing_percent / 100) * (inject_Z beat_duration_ms / 2))%Q.

Definition apply_panning (audio : AudioSegment) (pan : Q) : AudioSegment :=
  if Qeq_bool pan 0 then audio
  else
    let left_gain := (- pan * 12)%Q in
    let right_gain := (pan * 12)%Q in
    Pan (SetChannels audio 2) left_gain right_gain.

Definition apply_volume (audio : AudioSegment) (volume : Q) : AudioSegment :=
  if Qeq_bool volume 100 then audio
  else
    let db_change := ((volume - 100) * (24 # 100))%Q in
    ApplyGain audio db_change.

(** ** Rhythm generation *)

Inductive RhythmResult : Type :=
| Generated (loop : AudioSegment) (instrument_stems : dict AudioSegment)
    (instrument_patterns : dict (list Z))
| SilentLoop (loop : AudioSegment).


Definition stems_of (r : RhythmResult) : dict AudioSegment :=
  match r with
  | Generated _ stems _ => stems
  | SilentLoop _ => []
  end.

Record Validated : Type := mkValidated {
  v_style : string;
  v_bpm : Z;
  v_note_type : string;
  v_swing : Z;
  v_complexity : string;
  v_pattern_length : Z;
  v_time_signature : string;
  v_subdivision : string
}.

(** The "Validate inputs" block. *)
Definition validate_inputs (style : string) (bpm : Z) (note_type : string)
    (swing : Z) (complexity : string) (pattern_length : Z)
    (time_signature subdivision : string) : result Validated :=
  let style := if negb (dict_contains STYLE_CONFIGS style) then "pop" else style in
  rbind (if (bpm <? MIN_BPM) || (bpm >? MAX_BPM)
         then rbind (dict_getitem STYLE_CONFIGS style) (fun c => Ok (style_bpm c))
         else Ok bpm) (fun bpm =>
  let note_type := if negb (dict_contains NOTE_TYPES note_type) then "quarter" else note_type in
  let swing := if (swing <? MIN_SWING) || (swing >? MAX_SWING) then 0 else swing in
  let complexity :=
    if negb (list_contains complexity COMPLEXITY_LEVELS) then "medium" else complexity in
  let pattern_length :=
    if (pattern_length <? 4) || (pattern_length >? 16) then 8 else pattern_length in
  let time_signature :=
    if negb (list_contains time_signature TIME_SIGNATURES) then "4/4" else time_signature in
  let subdivision :=
    if negb (list_contains subdivision SUBDIVISIONS) then "straight" else subdivision in
  Ok (mkValidated style bpm note_type swing complexity pattern_length
        time_signature subdivision)).

(** The "Calculate beat duration" block. *)
Definition calc_beat_duration_ms (bpm : Z) (note_type subdivision : string) : result Z :=
  rbind (py_truediv 60000 (inject_Z bpm)) (fun q =>
  rbind (dict_getitem NOTE_TYPES note_type) (fun nt =>
  let beat_duration_ms := py_int (q * nt)%Q in
  if (subdivision =? "triplet")%string then
    rbind (py_truediv (inject_Z (beat_duration_ms * 2)) 3) (fun t => Ok (py_int t))
  else Ok beat_duration_ms)).

(** The "Get style-specific pattern" loop. *)
Fixpoint generate_patterns (complexity : string) (pattern_length : Z)
    (base_patterns : dict (list Z)) (fill_frequency : Q)
    (instruments : list string) (instrument_patterns : dict (list Z))
  : M (dict (list Z)) :=
  match instruments with
  | [] => ret instrument_patterns
  | inst :: instruments' =>
      let base_pattern := dict_get_default base_patterns inst (py_list_mul [0] 8) in
      pattern <- generate_pattern complexity pattern_length base_pattern fill_frequency ;;
      generate_patterns complexity pattern_length base_patterns fill_frequency
        instruments' (dict_set instrument_patterns inst pattern)
  end.

(** The "Load samples" loop over a copy of [instruments]; returns the
    sample map and the pruned instrument list. *)
Fixpoint load_all (env : Environment) (todo : list string)
    (instrument_samples : dict (list AudioSegment)) (instruments : list string)
  : result (dict (list AudioSegment) * list string) :=
  match todo with
  | [] => Ok (instrument_samples, instruments)
  | inst :: todo' =>
      rbind (load_samples env inst) (fun samples =>
      match samples with
      | [] => load_all env todo' instrument_samples (list_remove inst instruments)
      | _ => load_all env todo' (dict_set instrument_samples inst samples) instruments
      end)
  end.

(** [{inst: create_silent_segment(0) for inst in instruments}] *)
Definition initial_stems (instruments : list string) : dict AudioSegment :=
  fold_left (fun d inst => dict_set d inst (create_silent_segment 0)) instruments [].

(** Forcing a sample to the beat duration. *)
Definition fit_to_beat (sample : AudioSegment) (beat_duration_ms : Z) : AudioSegment :=
  if len sample <? beat_duration_ms then
    Append sample (create_silent_segment (beat_duration_ms - len sample))
  else if len sample >? beat_duration_ms then SliceTo sample beat_duration_ms
  else sample.

(** One instrument at one beat: the body of [for instrument in instrument_samples]. *)
Definition mix_instrument (beat_idx beat_duration_ms : Z)
    (volumes pan_settings : dict Q) (instrument_patterns : dict (list Z))
    (instrument : string) (samples : list AudioSegment)
    (state : AudioSegment * dict AudioSegment)
  : M (AudioSegment * dict AudioSegment) :=
  let '(beat_layer, instrument_stems) := state in
  match dict_get instrument_patterns instrument with
  | None => ret state
  | Some pattern =>
      hit <- lift (py_getitem 0 pattern beat_idx) ;;
      if hit =? 0 then ret state
      else
        sample <- choose_sample samples ;;
        let volume := dict_get_default volumes instrument DEFAULT_VOLUME in
        let sample := apply_volume sample volume in
        let pan := dict_get_default pan_settings instrument 0%Q in
        let sample := apply_panning sample pan in
        let sample := fit_to_beat sample beat_duration_ms in
        let beat_layer := Overlay beat_layer sample (Some (- (6 # 1))%Q) in
        let stem_segment := create_silent_segment beat_duration_ms in
        let stem_segment := Overlay stem_segment sample None in
        match dict_get instrument_stems instrument with
        | Some stem =>
            ret (beat_layer,
                 dict_set instrument_stems instrument (Append stem stem_segment))
        | None => ret (beat_layer, instrument_stems)
        end
  end.

Fixpoint mix_instruments (beat_idx beat_duration_ms : Z)
    (volumes pan_settings : dict Q) (instrument_patterns : dict (list Z))
    (instrument_samples : dict (list AudioSegment))
    (state : AudioSegment * dict AudioSegment)
  : M (AudioSegment * dict AudioSegment) :=
  match instrument_samples with
  | [] => ret state
  | (instrument, samples) :: rest =>
      state' <- mix_instrument beat_idx beat_duration_ms volumes pan_settings
                  instrument_patterns instrument samples state ;;
      mix_instruments beat_idx beat_duration_ms volumes pan_settings
        instrument_patterns rest state'
  end.

(** One pass of [for beat_idx in range(pattern_length)]. *)
Definition mix_beat (beat_duration_ms : Z) (volumes pan_settings : dict Q)
    (instrument_patterns : dict (list Z))
    (instrument_samples : dict (list AudioSegment))
    (state : list AudioSegment * dict AudioSegment) (beat_idx : Z)
  : M (list AudioSegment * dict AudioSegment) :=
  let '(beat_layers, instrument_stems) := state in
  let beat_layer := create_silent_segment beat_duration_ms in
  r <- mix_instruments beat_idx beat_duration_ms volumes pan_settings
         instrument_patterns instrument_samples (beat_layer, instrument_stems) ;;
  let '(beat_layer, instrument_stems) := r in
  let beat_layer :=
    Normalize (SetSampleWidth (SetFrameRate (SetChannels beat_layer 1) SAMPLE_RATE) 2) in
  ret ((beat_layers ++ [beat_layer])%list, instrument_stems).

Fixpoint mix_beats (beat_duration_ms : Z) (volumes pan_settings : dict Q)
    (instrument_patterns : dict (list Z))
    (instrument_samples : dict (list AudioSegment))
    (beats : list Z) (state : list AudioSegment * dict AudioSegment)
  : M (list AudioSegment * dict AudioSegment) :=
  match beats with
  | [] => ret state
  | beat_idx :: beats' =>
      state' <- mix_beat beat_duration_ms volumes pan_settings instrument_patterns
                  instrument_samples state beat_idx ;;
      mix_beats beat_duration_ms volumes pan_settings instrument_patterns
        instrument_samples beats' state'
  end.

(** The "Concatenate and repeat loop" block. *)
Definition assemble_loop (beat_layers : list AudioSegment)
    (pattern_length beat_duration_ms loop_repeats : Z) (master_volume : Q)
  : AudioSegment :=
  let loop := create_silent_segment 0 in
  let loop :=
    fold_left (fun loop _ => fold_left Append beat_layers loop)
      (py_range1 loop_repeats) loop in
  let loop := apply_volume loop master_volume in
  let expected_duration := pattern_length * beat_duration_ms * loop_repeats in
  if len loop <? expected_duration then
    Append loop (create_silent_segment (expected_duration - len loop))
  else loop.

Definition generate_rhythm (env : Environment) (style : string)
    (instruments : list string) (bpm : Z) (note_type : string) (swing : Z)
    (complexity : string) (volumes : dict Q) (pattern_length : Z)
    (time_signature subdivision : string) (fill_frequency master_volume : Q)
    (pan_settings : dict Q) (loop_repeats : Z) : M RhythmResult :=
  v <- lift (validate_inputs style bpm note_type swing complexity pattern_length
               time_signature subdivision) ;;
  let style := v_style v in
  let bpm := v_bpm v in
  let note_type := v_note_type v in
  let swing := v_swing v in
  let complexity := v_complexity v in
  let pattern_length := v_pattern_length v in
  let subdivision := v_subdivision v in
  beat_duration_ms <- lift (calc_beat_duration_ms bpm note_type subdivision) ;;
  config <- lift (dict_getitem STYLE_CONFIGS style) ;;
  let base_patterns := style_pattern config in
  instrument_patterns <-
    generate_patterns complexity pattern_length base_patterns fill_frequency
      instruments [] ;;
  loaded <- lift (load_all env instruments [] instruments) ;;
  let '(instrument_samples, instruments) := loaded in
  match instrument_samples with
  | [] =>
      ret (SilentLoop
             (create_silent_segment (pattern_length * beat_duration_ms * loop_repeats)))
  | _ =>
      let instrument_stems := initial_stems instruments in
      mixed <- mix_beats beat_duration_ms volumes pan_settings instrument_patterns
                 instrument_samples (py_range1 pattern_length) ([], instrument_stems) ;;
      let '(beat_layers, instrument_stems) := mixed in
      let loop :=
        assemble_loop beat_layers pattern_length beat_duration_ms loop_repeats
          master_volume in
      ret (Generated loop instrument_stems instrument_patterns)
  end.

(** ** MIDI event timeline *)

Inductive Message : Type :=
| set_tempo (tempo time : Z)
| note_on (note velocity time : Z)
| note_off (note velocity time : Z).

Definition msg_time (msg : Message) : Z :=
  match msg with
  | set_tempo _ t | note_on _ _ t | note_off _ _ t => t
  end.

(** [msg.time = t] *)
Definition with_time (msg : Message) (t : Z) : Message :=
  match msg with
  | set_tempo tempo _ => set_tempo tempo t
  | note_on n v _ => note_on n v t
  | note_off n v _ => note_off n v t
  end.

Definition is_note_on (msg : Message) : bool :=
  match msg with note_on _ _ _ => true | _ => false end.

Definition is_note_off (msg : Message) : bool :=
  match msg with note_off _ _ _ => true | _ => false end.

(** [mido.MidiFile().ticks_per_beat] *)
Definition ticks_per_beat : Z := 480.

(** [round(x)]: to the nearest integer, ties to even *)
Definition py_round (x : Q) : Z :=
  let d := Zpos (Qden x) in
  let q := Qnum x / d in
  let r := Qnum x mod d in
  if 2 * r <? d then q
  else if 2 * r >? d then q + 1
  else if Z.even q then q else q + 1.

(** [mido.bpm2tempo(bpm)] followed by the range check of the tempo meta message *)
Definition tempo_message (bpm : Z) : result Message :=
  rbind (py_truediv 60000000 (inject_Z bpm)) (fun q =>
  let tempo := py_round q in
  if (0 <=? tempo) && (tempo <=? 16777215) then Ok (set_tempo tempo 0)
  else Raise ValueError).

(** [for i, hit in enumerate(pattern): if hit: ...], from index [i] on *)
Fixpoint pattern_events (midi_note note_duration i : Z) (pattern : list Z)
  : list (Z * Message) :=
  match pattern with
  | [] => []
  | hit :: pattern' =>
      let rest := pattern_events midi_note note_duration (i + 1) pattern' in
      if hit =? 0 then rest
      else
        let start_time := i * note_duration in
        (start_time, note_on midi_note 100 0)
          :: (start_time + note_duration, note_off midi_note 0 0) :: rest
  end.

Fixpoint collect_events (note_duration : Z) (items : dict (list Z))
    (events : list (Z * Message)) : result (list (Z * Message)) :=
  match items with
  | [] => Ok events
  | (inst, pattern) :: items' =>
      rbind (list_index inst AVAILABLE_INSTRUMENTS) (fun idx =>
      let midi_note := 36 + idx in
      collect_events note_duration items'
        (events ++ pattern_events midi_note note_duration 0 pattern)%list)
  end.

(** [events.sort(key=lambda x: x[0])]: the sort is stable, so its result is
    that of inserting each event after those not later than itself. *)
Fixpoint insert_event (e : Z * Message) (sorted : list (Z * Message))
  : list (Z * Message) :=
  match sorted with
  | [] => [e]
  | h :: t => if fst e <? fst h then e :: h :: t else h :: insert_event e t
  end.

Definition sort_events (events : list (Z * Message)) : list (Z * Message) :=
  fold_left (fun sorted e => insert_event e sorted) events [].

(** [for event_time, msg in events: ...] *)
Fixpoint emit_events (events : list (Z * Message)) (last_time : Z) : list Message :=
  match events with
  | [] => []
  | (event_time, msg) :: events' =>
      let delta_time := event_time - last_time in
      with_time msg delta_time :: emit_events events' event_time
  end.

Inductive MidiExport : Type :=
| MidiSkipped
| MidiSaved (track : list Message)
| MidiFailed (e : Exception).

Definition generate_midi (MIDO_AVAILABLE : bool) (instrument_patterns : dict (list Z))
    (pattern_length bpm : Z) (note_type subdivision : string) : MidiExport :=
  if negb MIDO_AVAILABLE then MidiSkipped
  else
    match
      rbind (tempo_message bpm) (fun tempo =>
      rbind (dict_getitem NOTE_TYPES note_type) (fun nt =>
      let note_duration :=
        py_int (inject_Z ticks_per_beat * nt
                * (if (subdivision =? "triplet")%string then 2 # 3 else 1))%Q in
      rbind (collect_events note_duration instrument_patterns []) (fun events =>
      Ok (tempo :: emit_events (sort_events events) 0))))
    with
    | Ok track => MidiSaved track
    | Raise e => MidiFailed e
    end.

(** Number of hits in a set of rows. *)
Definition row_hits (pattern : list Z) : nat :=
  List.length (filter (fun hit => negb (hit =? 0)) pattern).

Definition total_hits (instrument_patterns : dict (list Z)) : nat :=
  fold_right (fun kv n => (row_hits (snd kv) + n)%nat) 0%nat instrument_patterns.

(** ** Well-formed environments and sample scenarios *)

Definition is_ok {A : Type} (r : result A) : bool :=
  match r with
  | Ok _ => true
  | Raise _ => false
  end.

(** [samples], when it exists, is a directory, and every folder in it can
    be listed under its lower-cased name: the folder names are lower-case,
    as they are in [INSTRUMENT_TO_FOLDER], or the file system ignores case. *)
Definition folders_resolvable (env : Environment) : bool :=
  match samples_listing env with
  | NoSuchPath => true
  | RegularFile => false
  | Directory entries =>
      forallb
        (fun e => implb (entry_is_dir e)
                    (is_ok (os_listdir_in entries (lower (entry_name e)))))
        entries
  end.

(** No [samples/] directory, NumPy installed. *)
Definition env_no_samples : Environment := mkEnv NoSuchPath true (fun _ _ => 0%Q).

(** A sample tree with one usable kick, an empty snare folder, a misspelt
    hi-hat folder and a bass folder whose only file does not decode; the
    similarity measure recognises the misspelt folder only. *)
Definition env_mixed : Environment :=
  mkEnv
    (Directory [mkEntry "kicks" true [mkFile "kick_01.wav" (Some (350, 2)); mkFile "notes.txt" None];
           mkEntry "snares" true [];
           mkEntry "hihatz" true [mkFile "closed.WAV" (Some (120, 1))];
           mkEntry "bass" true [mkFile "broken.wav" None];
           mkEntry "readme.md" false []])
    false
    (fun a b => if (a =? "hihatz")%string && (b =? "hihats")%string then 9 # 10 else 0)%Q.

(** A generator whose every draw is zero, and one whose draws sit in the
    upper half of the unit interval. *)
Definition rng_zero : RandomState := mkRandom (fun _ => 0) 0%nat.
Definition rng_half : RandomState := mkRandom (fun n => 2 ^ 52 + Z.of_nat n) 0%nat.

Definition pop_kick : list Z := [1; 0; 1; 0; 1; 0; 1; 0].

(** Number of elements of [l] that satisfy [f]. *)
Definition count {A : Type} (f : A -> bool) (l : list A) : nat :=
  List.length (filter f l).

(** Events in non-decreasing tick order, none earlier than [t]. *)
Fixpoint sorted_from (t : Z) (events : list (Z * Message)) : Prop :=
  match events with
  | [] => True
  | e :: events' => t <= fst e /\ sorted_from (fst e) events'
  end.

(** The stems as they stand once beats [0 .. beat_idx] have been mixed. *)
Definition stems_after_beat (beat_duration_ms : Z) (volumes pan_settings : dict Q)
    (instrument_patterns : dict (list Z))
    (instrument_samples : dict (list AudioSegment)) (instruments : list string)
    (beat_idx : Z) : M (dict AudioSegment) :=
  mixed <- mix_beats beat_duration_ms volumes pan_settings instrument_patterns
             instrument_samples (py_range1 (beat_idx + 1))
             ([], initial_stems instruments) ;;
  ret (snd mixed).

Definition durations (stems : dict AudioSegment) : dict Z :=
  map (fun kv => (fst kv, len (snd kv))) stems.



(** A regular file named [samples] where the sample directory should be. *)
Definition env_samples_is_file : Environment :=
  mkEnv RegularFile true (fun _ _ => 0%Q).

(** A sample tree whose kick folder is spelt with a capital, on a file
    system that tells cases apart. *)
Definition env_capital_folder : Environment :=
  mkEnv (Directory [mkEntry "Kicks" true [mkFile "kick_01.wav" (Some (350, 2))]])
    true (fun _ _ => 0%Q).

(** The same tree with the folder misspelt as well: [Kickz] is the closest
    match of [kicks], at similarity 0.8. *)
Definition env_capital_fuzzy : Environment :=
  mkEnv (Directory [mkEntry "Kickz" true [mkFile "kick_01.wav" (Some (350, 2))]])
    true
    (fun a b => if (a =? "kickz")%string && (b =? "kicks")%string then 8 # 10 else 0)%Q.

(** ** Observations on rows *)


(** ** Observations on tracks *)

(** Absolute ticks of a message sequence: the running sum of the
    delta-times, starting from [start]. *)
Fixpoint absolute_ticks (msgs : list Message) (start : Z) : list Z :=
  match msgs with
  | [] => []
  | msg :: msgs' => (start + msg_time msg) :: absolute_ticks msgs' (start + msg_time msg)
  end.

(** A note message as [generate_midi] writes it: a drum-map note of a
    supported instrument, struck at velocity 100 or released at velocity 0. *)
Definition well_formed_note (msg : Message) : bool :=
  match msg with
  | note_on n v _ => (36 <=? n) && (n <=? 44) && (v =? 100)
  | note_off n v _ => (36 <=? n) && (n <=? 44) && (v =? 0)
  | set_tempo _ _ => false
  end.

(** ** Export *)

(** What the export step finds outside the program. *)
Record ExportEnvironment : Type := mkExportEnv {
  (** [check_ffmpeg()] *)
  ffmpeg_found : bool;
  (** the global [MIDO_AVAILABLE] *)
  mido_installed : bool;
  (** [datetime.now().strftime("%Y%m%d_%H%M%S")] *)
  timestamp : string;
  (** whether writing the file at this path succeeds *)
  can_write : string -> bool
}.

(** A file written by the export step. *)
Inductive Written : Type :=
| AudioFile (filename format : string) (audio : AudioSegment)
| MidiFile (filename : string) (track : list Message).

(** [s.replace(".mp3", ".wav")] *)
Fixpoint replace_mp3_wav (s : string) : string :=
  match s with
  | String "." (String "m" (String "p" (String "3" rest))) =>
      ".wav" ++ replace_mp3_wav rest
  | String c s' => String c (replace_mp3_wav s')
  | EmptyString => EmptyString
  end.

(** [n] copies of the buffer, one after the other; no copy is the buffer
    cut to nothing. *)
Fixpoint repeat_segment (audio : AudioSegment) (n : nat) : AudioSegment :=
  match n with
  | O => SliceTo audio 0
  | S n' => Append (repeat_segment audio n') audio
  end.

(** [audio * n] *)
Definition audio_mul (audio : AudioSegment) (n : Z) : AudioSegment :=
  repeat_segment audio (Z.to_nat n).

(** [normalize(audio.set_channels(1).set_frame_rate(SAMPLE_RATE).set_sample_width(2))] *)
Definition normalize_canonical (audio : AudioSegment) : AudioSegment :=
  Normalize (SetSampleWidth (SetFrameRate (SetChannels audio 1) SAMPLE_RATE) 2).

(** The format and the name of the loop file, after the fallback from mp3
    to wav when no encoder is found. *)
Definition export_target (xenv : ExportEnvironment) (project_name style output_format : string)
  : string * string :=
  let output_dir := "output" in
  let output_filename :=
    output_dir ++ "/" ++ project_name ++ "_" ++ style ++ "_" ++ timestamp xenv
      ++ "." ++ output_format in
  if (output_format =? "mp3")%string && negb (ffmpeg_found xenv)
  then ("wav", replace_mp3_wav output_filename)
  else (output_format, output_filename).

(** The [for inst, stem in instrument_stems.items()] loop. *)
Fixpoint export_stem_files (xenv : ExportEnvironment)
    (project_name style output_format : string) (loop_repeats : Z)
    (instrument_stems : dict AudioSegment) : list Written :=
  match instrument_stems with
  | [] => []
  | (inst, stem) :: rest =>
      let stem_filename :=
        "output" ++ "/" ++ project_name ++ "_" ++ style ++ "_" ++ inst ++ "_"
          ++ timestamp xenv ++ "." ++ output_format in
      let stem := normalize_canonical stem in
      let stem := audio_mul stem loop_repeats in
      ((if can_write xenv stem_filename
        then [AudioFile stem_filename output_format stem] else [])
       ++ export_stem_files xenv project_name style output_format loop_repeats rest)%list
  end.

Definition export_rhythm (xenv : ExportEnvironment) (loop : AudioSegment)
    (instrument_stems : dict AudioSegment) (instrument_patterns : dict (list Z))
    (style : string) (bpm : Z) (note_type : string) (pattern_length : Z)
    (output_format : string) (export_stems export_midi : bool)
    (project_name : string) (loop_repeats : Z) (subdivision : string)
  : list Written :=
  let '(output_format, output_filename) :=
    export_target xenv project_name style output_format in
  if negb (can_write xenv output_filename) then []
  else
    let stem_files :=
      if export_stems
      then export_stem_files xenv project_name style output_format loop_repeats
             instrument_stems
      else [] in
    let midi_filename :=
      "output" ++ "/" ++ project_name ++ "_" ++ style ++ "_" ++ timestamp xenv
        ++ ".mid" in
    let midi_files :=
      if export_midi then
        match generate_midi (mido_installed xenv) instrument_patterns pattern_length
                bpm note_type subdivision with
        | MidiSaved track =>
            if can_write xenv midi_filename then [MidiFile midi_filename track] else []
        | _ => []
        end
      else [] in
    AudioFile output_filename output_format (normalize_canonical loop)
      :: (stem_files ++ midi_files)%list.

(** The "Validate instruments" block of [main]. *)
Definition validate_instruments (instruments : list string) (volumes pan_settings : dict Q)
  : list string * dict Q * dict Q :=
  let instruments := filter (fun i => list_contains i AVAILABLE_INSTRUMENTS) instruments in
  match instruments with
  | [] =>
      let instruments := ["kick"; "snare"] in
      (instruments,
       fold_left (fun d inst => dict_set d inst DEFAULT_VOLUME) instruments [],
       fold_left (fun d inst => dict_set d inst 0%Q) instruments [])
  | _ => (instruments, volumes, pan_settings)
  end.



(** ** The run of [main] once the configuration is assembled *)




(** * Properties *)

(** ** The runtime layer *)

Lemma bind_ok {A B : Type} (m : M A) (k : A -> M B) st a st' :
  m st = Ok (a, st') -> bind m k st = k a st'.
Proof. intros H. unfold bind. now rewrite H. Qed.

Lemma bind_raise {A B : Type} (m : M A) (k : A -> M B) st e :
  m st = Raise e -> bind m k st = Raise e.
Proof. intros H. unfold bind. now rewrite H. Qed.

Lemma lift_ok {A : Type} (r : result A) a st :
  r = Ok a -> lift r st = Ok (a, st).
Proof. intros ->. reflexivity. Qed.

Lemma list_update_length {A : Type} (l : list A) k v :
  List.length (list_update l k v) = List.length l.
Proof.
  revert k. induction l as [|h t IH]; intros [|k]; simpl; auto.
Qed.

Lemma nth_list_update_same {A : Type} (l : list A) k v d :
  (k < List.length l)%nat -> nth k (list_update l k v) d = v.
Proof.
  revert k. induction l as [|h t IH]; intros [|k] Hk; simpl in *; try lia; auto.
  apply IH. lia.
Qed.

Lemma nth_list_update_other {A : Type} (l : list A) j k v d :
  j <> k -> nth j (list_update l k v) d = nth j l d.
Proof.
  revert j k. induction l as [|h t IH]; intros [|j] [|k] Hjk; simpl; auto; try congruence.
Qed.

Lemma py_index_in_range len i :
  0 <= i < len -> py_index len i = Some (Z.to_nat i).
Proof.
  intros H. unfold py_index.
  destruct (i <? 0) eqn:E; [apply Z.ltb_lt in E; lia|].
  replace (0 <=? i) with true by (symmetry; apply Z.leb_le; lia).
  replace (i <? len) with true by (symmetry; apply Z.ltb_lt; lia).
  reflexivity.
Qed.

Lemma py_getitem_in_range {A : Type} (d : A) l i :
  0 <= i < Z.of_nat (List.length l) ->
  py_getitem d l i = Ok (nth (Z.to_nat i) l d).
Proof. intros H. unfold py_getitem. now rewrite py_index_in_range. Qed.

Lemma py_setitem_in_range {A : Type} (l : list A) i v :
  0 <= i < Z.of_nat (List.length l) ->
  py_setitem l i v = Ok (list_update l (Z.to_nat i) v).
Proof. intros H. unfold py_setitem. now rewrite py_index_in_range. Qed.


Lemma py_range1_length n : 0 <= n -> Z.of_nat (List.length (py_range1 n)) = n.
Proof.
  intros H. unfold py_range1. rewrite length_map, length_seq. lia.
Qed.

Lemma py_range1_bounds n i : In i (py_range1 n) -> 0 <= i < n.
Proof.
  unfold py_range1. intros H. apply in_map_iff in H as (k & <- & Hk).
  apply in_seq in Hk. lia.
Qed.


Lemma random_random_ok st : exists r, random_random st = Ok (r, advance st).
Proof. eexists. reflexivity. Qed.

Lemma random_choice_bit st :
  exists b, random_choice 0 [0; 1] st = Ok (b, advance st).
Proof. eexists. reflexivity. Qed.

(** A comprehension whose body succeeds on every element yields a list as
    long as the one iterated over. *)
Lemma comprehension_total {A B : Type} (f : A -> M B) (xs : list A) :
  (forall x st, In x xs -> exists y st', f x st = Ok (y, st')) ->
  forall st, exists ys st',
    comprehension f xs st = Ok (ys, st') /\ List.length ys = List.length xs.
Proof.
  induction xs as [|x xs IH]; intros Hf st; simpl.
  - exists [], st. auto.
  - destruct (Hf x st (or_introl eq_refl)) as (y & st1 & Ey).
    destruct (IH (fun x' st' H => Hf x' st' (or_intror H)) st1) as (ys & st2 & Eys & L).
    exists (y :: ys), st2. split; [|simpl; congruence].
    rewrite (bind_ok _ _ _ _ _ Ey), (bind_ok _ _ _ _ _ Eys). reflexivity.
Qed.

(** ** Pattern generation *)

Lemma concat_repeat_length {A : Type} (l : list A) k :
  List.length (List.concat (repeat l k)) = (k * List.length l)%nat.
Proof.
  induction k as [|k IH]; simpl; [reflexivity|].
  rewrite length_app, IH. reflexivity.
Qed.

Lemma py_slice_to_length {A : Type} (l : list A) n :
  0 <= n <= Z.of_nat (List.length l) ->
  Z.of_nat (List.length (py_slice_to l n)) = n.
Proof.
  intros H. unfold py_slice_to.
  destruct (n <? 0) eqn:E; [apply Z.ltb_lt in E; lia|].
  rewrite length_firstn. lia.
Qed.

Lemma extend_base_pattern_length base_pattern pattern_length :
  base_pattern <> [] -> 0 <= pattern_length ->
  exists extended,
    extend_base_pattern base_pattern pattern_length = Ok extended
    /\ Z.of_nat (List.length extended) = pattern_length.
Proof.
  intros Hne Hn. unfold extend_base_pattern.
  set (len := Z.of_nat (List.length base_pattern)).
  assert (Hlen : 0 < len).
  { subst len. destruct base_pattern; [congruence|simpl; lia]. }
  destruct (pattern_length <=? len) eqn:E.
  - apply Z.leb_le in E. eexists. split; [reflexivity|].
    apply py_slice_to_length. fold len. lia.
  - apply Z.leb_gt in E.
    destruct (len =? 0) eqn:E0; [apply Z.eqb_eq in E0; lia|].
    eexists. split; [reflexivity|].
    rewrite length_app, Nat2Z.inj_add.
    unfold py_list_mul. rewrite concat_repeat_length, Nat2Z.inj_mul.
    rewrite py_slice_to_length.
    + rewrite Z2Nat.id by (apply Z.div_pos; lia). fold len.
      rewrite Z.mul_comm. symmetry. apply Z.div_mod. lia.
    + fold len. pose proof (Z.mod_pos_bound pattern_length len Hlen). lia.
Qed.

(** The element expression shared by the medium and complex policies. *)
Lemma pattern_body_total (threshold : Q) base_pattern pattern_length :
  Z.of_nat (List.length base_pattern) = pattern_length ->
  forall st, exists pattern st',
    comprehension
      (fun i => r <- random_random ;;
                if Qltb r threshold then lift (py_getitem 0 base_pattern i)
                else random_choice 0 [0; 1])
      (py_range1 pattern_length) st = Ok (pattern, st')
    /\ Z.of_nat (List.length pattern) = pattern_length.
Proof.
  intros Hlen st.
  assert (Hn : 0 <= pattern_length) by lia.
  edestruct (comprehension_total
    (fun i => r <- random_random ;;
              if Qltb r threshold then lift (py_getitem 0 base_pattern i)
              else random_choice 0 [0; 1])
    (py_range1 pattern_length)) as (ys & st' & E & L).
  - intros i st0 Hi. apply py_range1_bounds in Hi.
    unfold bind, random_random.
    destruct (Qltb _ threshold).
    + rewrite py_getitem_in_range by lia. simpl. eauto.
    + simpl. eauto.
  - exists ys, st'. split; [exact E|].
    rewrite L. apply py_range1_length. exact Hn.
Qed.







(** C10: with the complex policy and a fill frequency of 0.0, the lower end
    of the documented range, [generate_pattern] raises [ZeroDivisionError]
    when it computes the stride [int(1 / fill_frequency)]; it returns no row. *)
Theorem complex_pattern_zero_fill_frequency_raises
    (pattern_length : Z) (base_pattern : list Z) (rng : RandomState) :
  4 <= pattern_length <= 16 ->
  base_pattern <> [] ->
  generate_pattern "complex" pattern_length base_pattern 0 rng
    = Raise ZeroDivisionError.
Proof.
  intros Hn Hne. unfold generate_pattern.
  destruct (extend_base_pattern_length base_pattern pattern_length Hne) as (ext & Eext & Lext);
    [lia|].
  rewrite (bind_ok _ _ _ _ _ (lift_ok _ _ rng Eext)). simpl.
  destruct (pattern_body_total (5 # 10) ext pattern_length Lext rng) as (p & st1 & Ep & Lp).
  apply bind_raise. rewrite (bind_ok _ _ _ _ _ Ep).
  reflexivity.
Qed.

Lemma complex_pattern_zero_fill_frequency_raises_witness :
  generate_pattern "complex" 8 pop_kick 0 rng_zero = Raise ZeroDivisionError.
Proof.
  apply (complex_pattern_zero_fill_frequency_raises 8 pop_kick rng_zero).
  - lia.
  - discriminate.
Defined.

(** ** Sample library *)

Lemma list_index_available instrument :
  In instrument AVAILABLE_INSTRUMENTS ->
  exists idx, list_index instrument AVAILABLE_INSTRUMENTS = Ok idx /\ 0 <= idx <= 8.
Proof.
  intros H. simpl in H.
  repeat (destruct H as [<-|H]; [eexists; split; [reflexivity|lia]|]).
  contradiction.
Qed.

Lemma synthetic_fallback_ok env instrument :
  In instrument AVAILABLE_INSTRUMENTS ->
  exists tone, synthetic_fallback env instrument = Ok [tone].
Proof.
  intros H. destruct (list_index_available instrument H) as (idx & E & _).
  unfold synthetic_fallback. rewrite E. simpl. eauto.
Qed.

Lemma list_contains_In x l : list_contains x l = true -> In x l.
Proof.
  unfold list_contains. intros H. apply existsb_exists in H as (y & Hy & E).
  apply String.eqb_eq in E. now subst.
Qed.

Lemma best_match_in word r candidates :
  forall best x,
    best_match word r candidates best = Some x ->
    In x candidates \/ best = Some x.
Proof.
  induction candidates as [|c cs IH]; intros best x H; simpl in H.
  - now right.
  - apply IH in H as [H|H]; [left; now right|].
    destruct best as [y|].
    + destruct (better word r c y); inversion H; subst; [left; now left|now right].
    + inversion H. left. now left.
Qed.

Lemma get_close_matches_in r word possibilities cutoff x :
  In x (get_close_matches r word possibilities cutoff) -> In x possibilities.
Proof.
  unfold get_close_matches.
  destruct (best_match word r _ None) as [y|] eqn:E; simpl; [|tauto].
  intros [<-|[]]. apply best_match_in in E as [E|E]; [|discriminate].
  apply filter_In in E. tauto.
Qed.

Lemma resolvable_folder entries name :
  forallb
    (fun e => implb (entry_is_dir e)
                (is_ok (os_listdir_in entries (lower (entry_name e)))))
    entries = true ->
  In name (map (fun e => lower (entry_name e)) (filter entry_is_dir entries)) ->
  exists files, os_listdir_in entries name = Ok files.
Proof.
  intros Hall Hin. apply in_map_iff in Hin as (e & <- & He).
  apply filter_In in He as [He Hdir].
  rewrite forallb_forall in Hall. specialize (Hall e He).
  rewrite Hdir in Hall. simpl in Hall.
  destruct (os_listdir_in entries (lower (entry_name e))); [eauto|discriminate].
Qed.

(** [load_samples] returns either the one-tone fallback or the files it
    decoded, of which there is then at least one. *)
Lemma load_samples_total (env : Environment) (instrument : string) :
  In instrument AVAILABLE_INSTRUMENTS ->
  folders_resolvable env = true ->
  exists samples,
    load_samples env instrument = Ok samples
    /\ (synthetic_fallback env instrument = Ok samples
        \/ exists folder_path files first rest,
             samples = load_files folder_path files [] /\ samples = first :: rest).
Proof.
  intros Hin Hres.
  destruct (synthetic_fallback_ok env instrument Hin) as (tone & Etone).
  set (outcome := fun samples : list AudioSegment =>
         synthetic_fallback env instrument = Ok samples
         \/ exists folder_path files first rest,
              samples = load_files folder_path files [] /\ samples = first :: rest).
  assert (Hfall : exists samples,
             synthetic_fallback env instrument = Ok samples /\ outcome samples).
  { exists [tone]. split; [exact Etone|]. left. exact Etone. }
  unfold load_samples, folders_resolvable in *.
  destruct (samples_listing env) as [| |entries]; [exact Hfall|discriminate|].
  set (folder_name := lower (dict_get_default INSTRUMENT_TO_FOLDER instrument instrument)).
  set (available := map (fun e => lower (entry_name e)) (filter entry_is_dir entries)).
  assert (Hlisted : forall name, In name available ->
            exists samples,
              rbind (os_listdir_in entries name)
                (fun files =>
                   match files with
                   | [] => synthetic_fallback env instrument
                   | _ :: _ =>
                       match load_files ("samples" ++ "/" ++ name) files [] with
                       | [] => synthetic_fallback env instrument
                       | a :: l => Ok (a :: l)
                       end
                   end) = Ok samples /\ outcome samples).
  { intros name Hname.
    destruct (resolvable_folder entries name Hres Hname) as (files & Efiles).
    rewrite Efiles. simpl.
    destruct files as [|f files]; [exact Hfall|].
    destruct (load_files _ (f :: files) []) as [|a l] eqn:El; [exact Hfall|].
    exists (a :: l). split; [reflexivity|]. right.
    exists ("samples" ++ "/" ++ name), (f :: files), a, l.
    split; [symmetry; exact El|reflexivity]. }
  destruct (list_contains folder_name available) eqn:Ec; simpl.
  - apply Hlisted. now apply list_contains_In.
  - destruct (get_close_matches (ratio env) folder_name available (8 # 10))
      as [|corrected rest] eqn:Em; [exact Hfall|].
    apply Hlisted.
    apply (get_close_matches_in (ratio env) folder_name available (8 # 10)).
    rewrite Em. now left.
Qed.

(** Where [samples] is absent or a directory whose folders open under
    their lower-cased names, [load_samples] returns a non-empty list for
    every supported instrument: instrument folder missing, folder found by
    fuzzy match, empty folder, no decodable file or usable files, with or
    without NumPy. *)
Theorem load_samples_never_empty (env : Environment) (instrument : string) :
  In instrument AVAILABLE_INSTRUMENTS ->
  folders_resolvable env = true ->
  exists samples, load_samples env instrument = Ok samples /\ samples <> [].
Proof.
  intros Hin Hres.
  destruct (load_samples_total env instrument Hin Hres) as (samples & E & Hcases).
  exists samples. split; [exact E|].
  destruct Hcases as [Hfallback | (folder_path & files & first & rest & _ & Hcons)].
  - destruct (synthetic_fallback_ok env instrument Hin) as (tone & Etone).
    rewrite Etone in Hfallback. inversion Hfallback. discriminate.
  - rewrite Hcons. discriminate.
Qed.

Lemma load_samples_never_empty_witness :
  (exists samples, load_samples env_mixed "kick" = Ok samples /\ samples <> [])
  /\ (exists samples, load_samples env_mixed "snare" = Ok samples /\ samples <> [])
  /\ (exists samples, load_samples env_mixed "hihat" = Ok samples /\ samples <> [])
  /\ (exists samples, load_samples env_mixed "bass" = Ok samples /\ samples <> [])
  /\ (exists samples, load_samples env_mixed "clap" = Ok samples /\ samples <> [])
  /\ (exists samples, load_samples env_no_samples "kick" = Ok samples /\ samples <> []).
Proof.
  repeat split;
    apply load_samples_never_empty; solve [reflexivity | simpl; tauto].
Defined.

(** ** Effects *)

Lemma apply_volume_len audio volume : len (apply_volume audio volume) = len audio.
Proof. unfold apply_volume. destruct (Qeq_bool volume 100); reflexivity. Qed.

Lemma apply_panning_len audio pan : len (apply_panning audio pan) = len audio.
Proof. unfold apply_panning. destruct (Qeq_bool pan 0); reflexivity. Qed.

(** C6: a volume of 100 returns the buffer itself; any other volume applies
    a gain of exactly [(volume - 100) * 0.24] decibels, so the decibels
    applied to a buffer always change by that amount, and by -24 at volume 0.
    Duration and channel count are untouched. *)
Theorem apply_volume_gain (audio : AudioSegment) (volume : Q) :
  apply_volume audio 100 = audio
  /\ (apply_volume audio volume = audio
      \/ apply_volume audio volume = ApplyGain audio ((volume - 100) * (24 # 100)))
  /\ (gain_db (apply_volume audio volume) == gain_db audio + (volume - 100) * (24 # 100))%Q
  /\ (gain_db (apply_volume audio 0) == gain_db audio - 24)%Q
  /\ len (apply_volume audio volume) = len audio
  /\ channels (apply_volume audio volume) = channels audio.
Proof.
  split; [reflexivity|].
  split.
  { unfold apply_volume. destruct (Qeq_bool volume 100); auto. }
  split.
  { unfold apply_volume. destruct (Qeq_bool volume 100) eqn:E.
    - apply Qeq_bool_iff in E. rewrite E. ring.
    - simpl. reflexivity. }
  split.
  { unfold apply_volume. simpl. ring. }
  split; [apply apply_volume_len|].
  unfold apply_volume. destruct (Qeq_bool volume 100); reflexivity.
Qed.



(** ** Input validation *)

Lemma style_lookup_total style :
  exists config,
    dict_getitem STYLE_CONFIGS
      (if negb (dict_contains STYLE_CONFIGS style) then "pop" else style) = Ok config
    /\ 20 <= style_bpm config <= 300
    /\ Forall (fun kv => snd kv <> []) (style_pattern config).
Proof.
  unfold dict_contains, dict_getitem.
  destruct (dict_get STYLE_CONFIGS style) as [c|] eqn:E; cbn [negb].
  - rewrite E. exists c. split; [reflexivity|].
    unfold STYLE_CONFIGS in E. simpl in E.
    repeat match type of E with
           | (if ?b then _ else _) = _ => destruct b
           end;
      inversion E; subst; simpl;
      (split; [lia|repeat constructor; discriminate]).
  - eexists. split; [reflexivity|]. simpl.
    split; [lia|repeat constructor; discriminate].
Qed.

Lemma validate_inputs_total style bpm note_type swing complexity pattern_length
    time_signature subdivision :
  exists v config,
    validate_inputs style bpm note_type swing complexity pattern_length
      time_signature subdivision = Ok v
    /\ dict_getitem STYLE_CONFIGS (v_style v) = Ok config
    /\ v_style v = (if negb (dict_contains STYLE_CONFIGS style) then "pop" else style)
    /\ v_bpm v = (if (bpm <? MIN_BPM) || (bpm >? MAX_BPM) then style_bpm config else bpm)
    /\ v_note_type v
       = (if negb (dict_contains NOTE_TYPES note_type) then "quarter" else note_type)
    /\ v_complexity v
       = (if negb (list_contains complexity COMPLEXITY_LEVELS) then "medium" else complexity)
    /\ v_pattern_length v
       = (if (pattern_length <? 4) || (pattern_length >? 16) then 8 else pattern_length)
    /\ v_subdivision v
       = (if negb (list_contains subdivision SUBDIVISIONS) then "straight" else subdivision).
Proof.
  destruct (style_lookup_total style) as (config & Ec & _).
  unfold validate_inputs. rewrite Ec. simpl.
  destruct ((bpm <? MIN_BPM) || (bpm >? MAX_BPM)); simpl;
    eexists; exists config; (split; [reflexivity|]); simpl; repeat split; exact Ec.
Qed.


(** C9: two runs of [generate_rhythm] that differ in the swing value only,
    started from the same random source, return the same loop, stems and
    patterns and leave the random source in the same state. *)
Theorem swing_has_no_effect
    (env : Environment) (style : string) (instruments : list string) (bpm : Z)
    (note_type : string) (swing1 swing2 : Z) (complexity : string) (volumes : dict Q)
    (pattern_length : Z) (time_signature subdivision : string)
    (fill_frequency master_volume : Q) (pan_settings : dict Q) (loop_repeats : Z)
    (rng : RandomState) :
  generate_rhythm env style instruments bpm note_type swing1 complexity volumes
    pattern_length time_signature subdivision fill_frequency master_volume
    pan_settings loop_repeats rng
  = generate_rhythm env style instruments bpm note_type swing2 complexity volumes
      pattern_length time_signature subdivision fill_frequency master_volume
      pan_settings loop_repeats rng.
Proof.
  unfold generate_rhythm.
  destruct (validate_inputs_total style bpm note_type swing1 complexity pattern_length
              time_signature subdivision)
    as (v1 & c1 & E1 & L1 & S1 & B1 & N1 & C1 & P1 & D1).
  destruct (validate_inputs_total style bpm note_type swing2 complexity pattern_length
              time_signature subdivision)
    as (v2 & c2 & E2 & L2 & S2 & B2 & N2 & C2 & P2 & D2).
  rewrite (bind_ok _ _ _ _ _ (lift_ok _ _ rng E1)).
  rewrite (bind_ok _ _ _ _ _ (lift_ok _ _ rng E2)).
  assert (Hc : c1 = c2).
  { rewrite S1 in L1. rewrite S2 in L2. congruence. }
  subst c2.
  rewrite S1, B1, N1, C1, P1, D1, S2, B2, N2, C2, P2, D2.
  reflexivity.
Qed.

(** ** MIDI event timeline *)

Lemma count_app {A : Type} (f : A -> bool) l1 l2 :
  count f (l1 ++ l2) = (count f l1 + count f l2)%nat.
Proof. unfold count. now rewrite filter_app, length_app. Qed.

Lemma count_cons {A : Type} (f : A -> bool) x l :
  count f (x :: l) = ((if f x then 1 else 0) + count f l)%nat.
Proof. unfold count. simpl. destruct (f x); reflexivity. Qed.

Lemma pattern_events_counts midi_note note_duration pattern :
  forall i,
    count (fun e => is_note_on (snd e))
      (pattern_events midi_note note_duration i pattern) = row_hits pattern
    /\ count (fun e => is_note_off (snd e))
         (pattern_events midi_note note_duration i pattern) = row_hits pattern.
Proof.
  induction pattern as [|hit pattern IH]; intros i; simpl; [split; reflexivity|].
  destruct (IH (i + 1)) as [IHon IHoff].
  unfold row_hits in *. simpl.
  destruct (hit =? 0); simpl; [split; assumption|].
  rewrite !count_cons. simpl. split; congruence.
Qed.

Lemma pattern_events_times midi_note note_duration pattern :
  0 <= note_duration ->
  forall i, 0 <= i ->
    Forall (fun e => 0 <= fst e) (pattern_events midi_note note_duration i pattern).
Proof.
  intros Hd. induction pattern as [|hit pattern IH]; intros i Hi; simpl.
  - constructor.
  - destruct (hit =? 0); [apply IH; lia|].
    repeat constructor; simpl; try nia. apply IH. lia.
Qed.

Lemma insert_event_count f e sorted :
  count f (insert_event e sorted) = count f (e :: sorted).
Proof.
  induction sorted as [|h t IH]; simpl; [reflexivity|].
  destruct (fst e <? fst h); [reflexivity|].
  rewrite count_cons, IH, !count_cons. lia.
Qed.

Lemma sort_events_count f events :
  count f (sort_events events) = count f events.
Proof.
  unfold sort_events.
  assert (H : forall acc,
             count f (fold_left (fun sorted e => insert_event e sorted) events acc)
             = (count f events + count f acc)%nat).
  { induction events as [|e events IH]; intros acc; simpl; [reflexivity|].
    rewrite IH, insert_event_count, !count_cons. lia. }
  rewrite H. unfold count at 2. simpl. lia.
Qed.

Lemma sorted_from_weaken t t' events :
  t' <= t -> sorted_from t events -> sorted_from t' events.
Proof. destruct events; simpl; [tauto|]. intros ? [? ?]. split; [lia|assumption]. Qed.

Lemma insert_event_sorted e sorted :
  forall t, t <= fst e -> sorted_from t sorted -> sorted_from t (insert_event e sorted).
Proof.
  induction sorted as [|h rest IH]; intros t Ht Hs; simpl in *.
  - auto.
  - destruct Hs as [Hh Hrest].
    destruct (fst e <? fst h) eqn:E; simpl.
    + apply Z.ltb_lt in E. repeat split; try lia. assumption.
    + apply Z.ltb_ge in E. split; [assumption|]. apply IH; assumption.
Qed.

Lemma sort_events_sorted events :
  Forall (fun e => 0 <= fst e) events -> sorted_from 0 (sort_events events).
Proof.
  unfold sort_events.
  assert (H : forall acc,
             Forall (fun e => 0 <= fst e) events -> sorted_from 0 acc ->
             sorted_from 0 (fold_left (fun sorted e => insert_event e sorted) events acc)).
  { induction events as [|e events IH]; intros acc Hall Hacc; simpl; [assumption|].
    inversion Hall; subst. apply IH; [assumption|].
    apply insert_event_sorted; assumption. }
  intros Hall. apply H; simpl; auto.
Qed.

Lemma msg_time_with_time msg t : msg_time (with_time msg t) = t.
Proof. destruct msg; reflexivity. Qed.

(** Delta-times of events emitted in tick order are non-negative. *)
Lemma emit_events_deltas events :
  forall last_time,
    sorted_from last_time events ->
    Forall (fun msg => 0 <= msg_time msg) (emit_events events last_time).
Proof.
  induction events as [|[t msg] events IH]; intros last_time Hs; simpl in *.
  - constructor.
  - destruct Hs as [Ht Hrest]. constructor.
    + rewrite msg_time_with_time. lia.
    + apply IH. assumption.
Qed.

Lemma emit_events_count events :
  forall last_time,
    count is_note_on (emit_events events last_time)
      = count (fun e => is_note_on (snd e)) events
    /\ count is_note_off (emit_events events last_time)
         = count (fun e => is_note_off (snd e)) events.
Proof.
  induction events as [|[t msg] events IH]; intros last_time; simpl.
  - split; reflexivity.
  - destruct (IH t) as [IHon IHoff]. rewrite !count_cons, IHon, IHoff. simpl.
    destruct msg; simpl; split; reflexivity.
Qed.

Lemma collect_events_total note_duration items :
  0 <= note_duration ->
  Forall (fun kv => In (fst kv) AVAILABLE_INSTRUMENTS) items ->
  forall acc,
    Forall (fun e => 0 <= fst e) acc ->
    exists events,
      collect_events note_duration items acc = Ok events
      /\ Forall (fun e => 0 <= fst e) events
      /\ count (fun e => is_note_on (snd e)) events
         = (count (fun e => is_note_on (snd e)) acc + total_hits items)%nat
      /\ count (fun e => is_note_off (snd e)) events
         = (count (fun e => is_note_off (snd e)) acc + total_hits items)%nat.
Proof.
  intros Hd. induction items as [|[inst pattern] items IH]; intros Hin acc Hacc;
    cbn [collect_events].
  - exists acc. unfold total_hits. simpl. repeat split; auto.
  - inversion Hin as [|? ? Hinst Hrest]; subst. cbn [fst] in Hinst.
    destruct (list_index_available inst Hinst) as (idx & Eidx & _).
    rewrite Eidx. cbn [rbind].
    change (total_hits ((inst, pattern) :: items))
      with (row_hits pattern + total_hits items)%nat.
    destruct (IH Hrest (acc ++ pattern_events (36 + idx) note_duration 0 pattern)%list)
      as (events & E & Ht & Con & Coff).
    { apply Forall_app. split; [assumption|].
      apply pattern_events_times; lia. }
    exists events. split; [exact E|]. split; [exact Ht|].
    rewrite Con, Coff, !count_app.
    destruct (pattern_events_counts (36 + idx) note_duration pattern 0) as [-> ->].
    split; lia.
Qed.

Lemma note_type_lookup note_type :
  dict_contains NOTE_TYPES note_type = true ->
  exists nt, dict_getitem NOTE_TYPES note_type = Ok nt
             /\ In nt [4 # 1; 2 # 1; 1 # 1; 1 # 2; 1 # 4; 1 # 8]%Q.
Proof.
  unfold dict_contains, dict_getitem.
  destruct (dict_get NOTE_TYPES note_type) as [nt|] eqn:E; [|discriminate].
  intros _. exists nt. split; [reflexivity|].
  unfold NOTE_TYPES in E. simpl in E.
  repeat match type of E with
         | (if ?b then _ else _) = _ => destruct b
         end;
    inversion E; subst; simpl; tauto.
Qed.

Lemma note_duration_nonneg nt subdivision :
  In nt [4 # 1; 2 # 1; 1 # 1; 1 # 2; 1 # 4; 1 # 8]%Q ->
  0 <= py_int (inject_Z ticks_per_beat * nt
               * (if (subdivision =? "triplet")%string then 2 # 3 else 1))%Q.
Proof.
  intros H. simpl in H.
  destruct (subdivision =? "triplet")%string;
    repeat (destruct H as [<-|H]; [vm_compute; discriminate|]);
    contradiction.
Qed.

Lemma tempo_message_total bpm :
  MIN_BPM <= bpm <= MAX_BPM ->
  exists tempo, tempo_message bpm = Ok (set_tempo tempo 0).
Proof.
  unfold MIN_BPM, MAX_BPM. intros H.
  destruct bpm as [|p|p]; try lia.
  unfold tempo_message, py_truediv, Qeq_bool, inject_Z. simpl.
  unfold py_round, Qdiv, Qmult, Qinv. cbn [Qnum Qden].
  replace (1 * p)%positive with p by lia.
  change (60000000 * Z.pos 1) with 60000000.
  set (q := 60000000 / Z.pos p). set (r := 60000000 mod Z.pos p).
  assert (Hq : 0 <= q <= 3000000).
  { subst q. split; [apply Z.div_pos; lia|].
    apply Z.div_le_upper_bound; lia. }
  destruct (2 * r <? Z.pos p); [|destruct (2 * r >? Z.pos p); [|destruct (Z.even q)]];
    match goal with
    | |- context [if ?c then _ else _] =>
        replace c with true by (symmetry; apply andb_true_iff; split; apply Z.leb_le; lia)
    end; eauto.
Qed.

(** C5: for every map of instrument rows, the track written by
    [generate_midi] carries a non-negative delta-time on every message, and
    it holds as many note-on messages as note-off messages, one of each per
    hit of the rows. *)
Theorem generate_midi_event_timeline
    (instrument_patterns : dict (list Z)) (pattern_length bpm : Z)
    (note_type subdivision : string) :
  MIN_BPM <= bpm <= MAX_BPM ->
  dict_contains NOTE_TYPES note_type = true ->
  Forall (fun kv => In (fst kv) AVAILABLE_INSTRUMENTS) instrument_patterns ->
  exists track,
    generate_midi true instrument_patterns pattern_length bpm note_type subdivision
      = MidiSaved track
    /\ Forall (fun msg => 0 <= msg_time msg) track
    /\ count is_note_on track = total_hits instrument_patterns
    /\ count is_note_off track = total_hits instrument_patterns.
Proof.
  intros Hbpm Hnt Hinst. unfold generate_midi. simpl negb. cbv iota.
  destruct (tempo_message_total bpm Hbpm) as (tempo & Et).
  destruct (note_type_lookup note_type Hnt) as (nt & Ent & Hin).
  pose proof (note_duration_nonneg nt subdivision Hin) as Hd.
  rewrite Et, Ent. cbn [rbind].
  destruct (collect_events_total _ instrument_patterns Hd Hinst [])
    as (events & Ee & Htimes & Con & Coff); [constructor|].
  rewrite Ee. cbn [rbind].
  eexists. split; [reflexivity|].
  destruct (emit_events_count (sort_events events) 0) as [Eon Eoff].
  split; [|split].
  - constructor; [simpl; lia|].
    apply emit_events_deltas. apply sort_events_sorted. exact Htimes.
  - rewrite count_cons. simpl. rewrite Eon, sort_events_count, Con. reflexivity.
  - rewrite count_cons. simpl. rewrite Eoff, sort_events_count, Coff. reflexivity.
Qed.

Lemma generate_midi_event_timeline_witness :
  exists track,
    generate_midi true
      [("kick", [1; 0; 1; 0; 1; 0; 1; 0]); ("snare", [1; 0; 0; 0; 1; 0; 0; 0])]
      8 120 "quarter" "straight" = MidiSaved track
    /\ Forall (fun msg => 0 <= msg_time msg) track
    /\ count is_note_on track = 6%nat
    /\ count is_note_off track = 6%nat.
Proof.
  apply (generate_midi_event_timeline
           [("kick", [1; 0; 1; 0; 1; 0; 1; 0]); ("snare", [1; 0; 0; 0; 1; 0; 0; 0])]
           8 120 "quarter" "straight").
  - unfold MIN_BPM, MAX_BPM. lia.
  - reflexivity.
  - repeat constructor; simpl; tauto.
Defined.

(** ** Beat mixing and loop assembly *)

Lemma validated_fields_in_range style bpm note_type swing complexity pattern_length
    time_signature subdivision v :
  validate_inputs style bpm note_type swing complexity pattern_length
    time_signature subdivision = Ok v ->
  MIN_BPM <= v_bpm v <= MAX_BPM
  /\ dict_contains NOTE_TYPES (v_note_type v) = true
  /\ In (v_complexity v) COMPLEXITY_LEVELS
  /\ 4 <= v_pattern_length v <= 16
  /\ (4 <= pattern_length <= 16 -> v_pattern_length v = pattern_length).
Proof.
  intros E.
  destruct (validate_inputs_total style bpm note_type swing complexity pattern_length
              time_signature subdivision)
    as (v' & c & E' & L & S & B & N & C & P & D).
  rewrite E in E'. inversion E'; subst v'. clear E'.
  destruct (style_lookup_total style) as (c' & Ec & Hbpm & _).
  rewrite <- S, L in Ec. inversion Ec; subst c'.
  unfold MIN_BPM, MAX_BPM in *.
  split.
  { rewrite B. destruct ((bpm <? 20) || (bpm >? 300)) eqn:Eb; [exact Hbpm|].
    apply orb_false_iff in Eb. rewrite Z.ltb_ge, Z.gtb_ltb, Z.ltb_ge in Eb. lia. }
  split.
  { rewrite N. destruct (dict_contains NOTE_TYPES note_type) eqn:En; [exact En|reflexivity]. }
  split.
  { rewrite C. destruct (list_contains complexity COMPLEXITY_LEVELS) eqn:Ec'.
    - now apply list_contains_In.
    - simpl. tauto. }
  rewrite P.
  destruct ((pattern_length <? 4) || (pattern_length >? 16)) eqn:Ep.
  - apply orb_true_iff in Ep. rewrite Z.ltb_lt, Z.gtb_lt in Ep. split; lia.
  - apply orb_false_iff in Ep. rewrite Z.ltb_ge, Z.gtb_ltb, Z.ltb_ge in Ep. split; lia.
Qed.

Lemma py_int_nonneg (x : Q) : 0 <= Qnum x -> 0 <= py_int x.
Proof. intros H. unfold py_int. apply Z.quot_pos; lia. Qed.

Lemma calc_beat_duration_ms_total bpm note_type subdivision :
  MIN_BPM <= bpm <= MAX_BPM ->
  dict_contains NOTE_TYPES note_type = true ->
  exists beat_duration_ms,
    calc_beat_duration_ms bpm note_type subdivision = Ok beat_duration_ms
    /\ 0 <= beat_duration_ms.
Proof.
  unfold MIN_BPM, MAX_BPM. intros Hbpm Hnt.
  destruct (note_type_lookup note_type Hnt) as (nt & Ent & Hin).
  destruct bpm as [|p|p]; try lia.
  unfold calc_beat_duration_ms. rewrite Ent.
  unfold py_truediv at 1. unfold Qeq_bool, inject_Z. cbn [Qnum Qden Z.mul Z.eqb Z.compare rbind].
  assert (H0 : 0 <= py_int (60000 / (Z.pos p # 1) * nt)%Q).
  { apply py_int_nonneg. simpl in Hin.
    repeat (destruct Hin as [<-|Hin]; [simpl; lia|]). contradiction. }
  destruct (subdivision =? "triplet")%string.
  - unfold py_truediv. cbn [Qeq_bool Qnum Qden Z.eqb Z.mul Z.compare rbind].
    eexists. split; [reflexivity|].
    apply py_int_nonneg. simpl. lia.
  - eexists. split; [reflexivity|exact H0].
Qed.















(** C1: a stem grows only at the beats where its instrument plays.  Pop
    style, kick and snare, 120 bpm, eight quarter-note beats of 500 ms: the
    kick rests at beat index 1 and its stem still lasts 500 ms there, not
    [(1 + 1) * 500]; at the end the kick stem lasts four beats and the
    snare stem two, while the mixed loop lasts all eight. *)
Theorem stems_skip_inactive_beats :
  exists loop stems patterns samples rng',
    generate_rhythm env_no_samples "pop" ["kick"; "snare"] 120 "quarter" 0 "medium"
      [] 8 "4/4" "straight" (2 # 10) 100 [] 1 rng_zero
    = Ok (Generated loop stems patterns, rng')
    /\ patterns = [("kick", [1; 0; 1; 0; 1; 0; 1; 0]); ("snare", [1; 0; 0; 0; 1; 0; 0; 0])]
    /\ calc_beat_duration_ms 120 "quarter" "straight" = Ok 500
    /\ len loop = 8 * 500
    /\ durations stems = [("kick", 4 * 500); ("snare", 2 * 500)]
    /\ load_all env_no_samples ["kick"; "snare"] [] ["kick"; "snare"]
       = Ok (samples, ["kick"; "snare"])
    /\ rbind (stems_after_beat 500 [] [] patterns samples ["kick"; "snare"] 1 rng_zero)
         (fun r => Ok (durations (fst r)))
       = Ok [("kick", 500); ("snare", 500)].
Proof.
  do 5 eexists.
  split; [vm_compute; reflexivity|].
  split; [reflexivity|].
  split; [vm_compute; reflexivity|].
  split; [vm_compute; reflexivity|].
  split; [vm_compute; reflexivity|].
  split; vm_compute; reflexivity.
Qed.

(** ** Stems *)












(** ** Further properties of the mixer and the sample library *)



(** C3: [load_samples] does not return a list in every directory state.
    The folder is found through its lower-cased name and then opened under
    that lower-cased name, so where the file system tells cases apart a
    folder spelt [Kicks], or one found by fuzzy match and spelt [Kickz],
    makes it raise [FileNotFoundError]; and a regular
    file named [samples] passes the existence test and makes the listing
    raise [NotADirectoryError].  Neither exception is caught. *)
Theorem load_samples_raises_on_unopenable_folder :
  In "kick" AVAILABLE_INSTRUMENTS
  /\ load_samples env_capital_folder "kick" = Raise FileNotFoundError
  /\ load_samples env_capital_fuzzy "kick" = Raise FileNotFoundError
  /\ load_samples env_samples_is_file "kick" = Raise NotADirectoryError
  /\ folders_resolvable env_capital_folder = false
  /\ folders_resolvable env_capital_fuzzy = false
  /\ folders_resolvable env_samples_is_file = false.
Proof.
  split; [simpl; tauto|].
  repeat split; reflexivity.
Qed.


(** ** More on pattern generation *)



Lemma nth_concat_repeat {A : Type} (l : list A) (d : A) :
  l <> [] ->
  forall k i,
    (i < k * List.length l)%nat ->
    nth i (List.concat (repeat l k)) d = nth (i mod List.length l) l d.
Proof.
  intros Hne.
  assert (Hlen : (0 < List.length l)%nat) by (destruct l; [congruence|simpl; lia]).
  induction k as [|k IH]; intros i Hi; [simpl in Hi; lia|].
  simpl repeat. simpl List.concat.
  destruct (Nat.lt_ge_cases i (List.length l)) as [Hlt|Hge].
  - rewrite app_nth1 by assumption. now rewrite Nat.mod_small.
  - rewrite app_nth2 by assumption. rewrite IH by (simpl in Hi; lia).
    f_equal.
    replace i with ((i - List.length l) + 1 * List.length l)%nat at 2 by lia.
    rewrite Nat.Div0.mod_add. reflexivity.
Qed.

Lemma nth_firstn {A : Type} (l : list A) (d : A) n i :
  (i < n)%nat -> nth i (firstn n l) d = nth i l d.
Proof.
  revert n i. induction l as [|h t IH]; intros [|n] [|i] H; simpl; auto; try lia.
  apply IH. lia.
Qed.

(** The extended base pattern is the base pattern repeated cyclically and
    cut at the pattern length: position [i] holds the base pattern's entry
    at [i mod len(base_pattern)], whether the base is longer or shorter
    than the pattern. *)
Theorem extend_base_pattern_cyclic (base_pattern : list Z) (pattern_length : Z) :
  base_pattern <> [] ->
  0 <= pattern_length ->
  exists extended,
    extend_base_pattern base_pattern pattern_length = Ok extended
    /\ Z.of_nat (List.length extended) = pattern_length
    /\ forall i : nat,
         Z.of_nat i < pattern_length ->
         nth i extended 0 = nth (i mod List.length base_pattern) base_pattern 0.
Proof.
  intros Hne Hn.
  destruct (extend_base_pattern_length base_pattern pattern_length Hne Hn)
    as (ext & E & L).
  exists ext. split; [exact E|]. split; [exact L|].
  assert (Hlen : (0 < List.length base_pattern)%nat)
    by (destruct base_pattern; [congruence|simpl; lia]).
  unfold extend_base_pattern in E.
  set (len := Z.of_nat (List.length base_pattern)) in *.
  destruct (pattern_length <=? len) eqn:Ele.
  - apply Z.leb_le in Ele. inversion E; subst ext. clear E.
    intros i Hi. unfold py_slice_to.
    destruct (pattern_length <? 0) eqn:E0; [apply Z.ltb_lt in E0; lia|].
    rewrite nth_firstn by lia. rewrite Nat.mod_small by lia. reflexivity.
  - apply Z.leb_gt in Ele.
    destruct (len =? 0) eqn:E0; [discriminate|].
    inversion E; subst ext. clear E.
    intros i Hi. unfold py_list_mul, py_slice_to.
    pose proof (Z.mod_pos_bound pattern_length len ltac:(lia)) as Hr.
    pose proof (Z.div_mod pattern_length len ltac:(lia)) as Hdm.
    assert (Hq : 0 <= pattern_length / len) by (apply Z.div_pos; lia).
    destruct (pattern_length mod len <? 0) eqn:E1; [apply Z.ltb_lt in E1; lia|].
    set (q := Z.to_nat (pattern_length / len)).
    assert (Hqlen : Z.of_nat (q * List.length base_pattern) = len * (pattern_length / len)).
    { subst q. rewrite Nat2Z.inj_mul, Z2Nat.id by lia. fold len. lia. }
    destruct (Nat.lt_ge_cases i (q * List.length base_pattern)) as [Hlt|Hge].
    + rewrite app_nth1 by (rewrite concat_repeat_length; exact Hlt).
      apply nth_concat_repeat; assumption.
    + rewrite app_nth2 by (rewrite concat_repeat_length; exact Hge).
      rewrite concat_repeat_length.
      rewrite nth_firstn by lia.
      f_equal.
      replace i with ((i - q * List.length base_pattern) + q * List.length base_pattern)%nat
        at 2 by lia.
      rewrite Nat.Div0.mod_add. rewrite Nat.mod_small by lia. reflexivity.
Qed.

Lemma extend_base_pattern_cyclic_witness :
  exists extended,
    extend_base_pattern [1; 0; 0] 8 = Ok extended
    /\ Z.of_nat (List.length extended) = 8
    /\ forall i : nat,
         Z.of_nat i < 8 ->
         nth i extended 0 = nth (i mod List.length [1; 0; 0]) [1; 0; 0] 0.
Proof.
  apply (extend_base_pattern_cyclic [1; 0; 0] 8).
  - discriminate.
  - lia.
Defined.

(** An empty base pattern cannot be extended: for a positive pattern length
    [generate_pattern] raises [ZeroDivisionError] under every policy, before
    it draws a random number. *)
Theorem generate_pattern_empty_base_raises
    (complexity : string) (pattern_length : Z) (fill_frequency : Q)
    (rng : RandomState) :
  0 < pattern_length ->
  extend_base_pattern [] pattern_length = Raise ZeroDivisionError
  /\ generate_pattern complexity pattern_length [] fill_frequency rng
     = Raise ZeroDivisionError.
Proof.
  intros Hn.
  assert (E : extend_base_pattern [] pattern_length = Raise ZeroDivisionError).
  { unfold extend_base_pattern. simpl.
    destruct (pattern_length <=? 0) eqn:E; [apply Z.leb_le in E; lia|reflexivity]. }
  split; [exact E|].
  unfold generate_pattern. apply bind_raise. rewrite E. reflexivity.
Qed.

Lemma generate_pattern_empty_base_raises_witness :
  extend_base_pattern [] 8 = Raise ZeroDivisionError
  /\ generate_pattern "medium" 8 [] (2 # 10) rng_zero = Raise ZeroDivisionError.
Proof.
  apply (generate_pattern_empty_base_raises "medium" 8 (2 # 10) rng_zero). lia.
Defined.













(** The simple policy never reads the base pattern or the fill frequency:
    from the same random source it returns the same row whatever non-empty
    base pattern it is given. *)
Theorem simple_policy_ignores_base_pattern
    (pattern_length : Z) (base1 base2 : list Z) (fill1 fill2 : Q)
    (rng : RandomState) :
  base1 <> [] -> base2 <> [] -> 0 <= pattern_length ->
  generate_pattern "simple" pattern_length base1 fill1 rng
  = generate_pattern "simple" pattern_length base2 fill2 rng.
Proof.
  intros H1 H2 Hn. unfold generate_pattern.
  destruct (extend_base_pattern_length base1 pattern_length H1 Hn) as (e1 & E1 & _).
  destruct (extend_base_pattern_length base2 pattern_length H2 Hn) as (e2 & E2 & _).
  rewrite (bind_ok _ _ _ _ _ (lift_ok _ _ rng E1)).
  rewrite (bind_ok _ _ _ _ _ (lift_ok _ _ rng E2)).
  reflexivity.
Qed.

Lemma simple_policy_ignores_base_pattern_witness :
  generate_pattern "simple" 8 [1; 1; 1; 1] (2 # 10) rng_half
  = generate_pattern "simple" 8 [0; 0] (9 # 10) rng_half.
Proof.
  apply (simple_policy_ignores_base_pattern 8 [1; 1; 1; 1] [0; 0]);
    [discriminate | discriminate | lia].
Defined.

(** A fill frequency above 1 gives a stride of [int(1 / fill_frequency)] = 0,
    and the descending range with step 0 raises [ValueError]: the complex
    policy returns no row. *)
Theorem complex_fill_frequency_above_one_raises
    (pattern_length : Z) (base_pattern : list Z) (fill_frequency : Q)
    (rng : RandomState) :
  4 <= pattern_length <= 16 ->
  base_pattern <> [] ->
  (1 < fill_frequency)%Q ->
  generate_pattern "complex" pattern_length base_pattern fill_frequency rng
    = Raise ValueError.
Proof.
  intros Hn Hne Hff. unfold generate_pattern.
  destruct (extend_base_pattern_length base_pattern pattern_length Hne) as (ext & Eext & Lext);
    [lia|].
  rewrite (bind_ok _ _ _ _ _ (lift_ok _ _ rng Eext)). simpl.
  destruct (pattern_body_total (5 # 10) ext pattern_length Lext rng) as (p & st1 & Ep & Lp).
  apply bind_raise. rewrite (bind_ok _ _ _ _ _ Ep).
  destruct fill_frequency as [n d]. unfold Qlt in Hff. simpl in Hff.
  destruct n as [|n|n]; try lia.
  unfold py_truediv, Qeq_bool. simpl.
  unfold bind at 1. unfold lift at 1.
  unfold py_int, Qdiv, Qmult, Qinv. simpl.
  rewrite Z.quot_small by lia. reflexivity.
Qed.

Lemma complex_fill_frequency_above_one_raises_witness :
  generate_pattern "complex" 8 pop_kick (3 # 2) rng_zero = Raise ValueError.
Proof.
  apply (complex_fill_frequency_above_one_raises 8 pop_kick (3 # 2) rng_zero).
  - lia.
  - discriminate.
  - reflexivity.
Defined.

Lemma medium_row_shape pattern_length base_pattern fill_frequency rng :
  4 <= pattern_length <= 16 ->
  base_pattern <> [] ->
  exists pattern rng',
    Z.of_nat (List.length pattern) = pattern_length
    /\ generate_pattern "medium" pattern_length base_pattern fill_frequency rng
       = Ok (list_update
               (list_update (list_update pattern 0 1) (Z.to_nat (pattern_length / 2)) 1)
               0 1, rng').
Proof.
  intros Hn Hne. unfold generate_pattern.
  destruct (extend_base_pattern_length base_pattern pattern_length Hne) as (ext & Eext & Lext);
    [lia|].
  rewrite (bind_ok _ _ _ _ _ (lift_ok _ _ rng Eext)). simpl.
  destruct (pattern_body_total (7 # 10) ext pattern_length Lext rng) as (p & st1 & Ep & Lp).
  exists p, st1. split; [exact Lp|].
  pose proof (Z.div_pos pattern_length 2 ltac:(lia) ltac:(lia)).
  pose proof (Z.div_lt pattern_length 2 ltac:(lia) ltac:(lia)).
  rewrite (bind_ok (bind _ _) _ rng
             (list_update (list_update p 0 1) (Z.to_nat (pattern_length / 2)) 1) st1).
  - apply lift_ok.
    apply (py_setitem_in_range
             (list_update (list_update p 0 1) (Z.to_nat (pattern_length / 2)) 1) 0 1).
    rewrite !list_update_length. lia.
  - rewrite (bind_ok _ _ _ _ _ Ep).
    rewrite (bind_ok _ _ _ _ _
               (lift_ok _ _ st1 (py_setitem_in_range p 0 1 ltac:(lia)))).
    apply lift_ok. change (Z.to_nat 0) with 0%nat.
    apply py_setitem_in_range. rewrite list_update_length. lia.
Qed.

(** The medium policy forces two hits: the downbeat and the position
    [pattern_length // 2]. *)
Theorem medium_policy_hits_midpoint
    (pattern_length : Z) (base_pattern : list Z) (fill_frequency : Q)
    (rng : RandomState) :
  4 <= pattern_length <= 16 ->
  base_pattern <> [] ->
  exists row rng',
    generate_pattern "medium" pattern_length base_pattern fill_frequency rng
      = Ok (row, rng')
    /\ py_getitem 0 row 0 = Ok 1
    /\ py_getitem 0 row (pattern_length / 2) = Ok 1.
Proof.
  intros Hn Hne.
  destruct (medium_row_shape pattern_length base_pattern fill_frequency rng Hn Hne)
    as (p & rng' & Lp & E).
  pose proof (Z.div_pos pattern_length 2 ltac:(lia) ltac:(lia)).
  pose proof (Z.div_lt pattern_length 2 ltac:(lia) ltac:(lia)).
  assert (H2 : 2 <= pattern_length / 2)
    by (apply Z.div_le_lower_bound; lia).
  eexists. exists rng'. split; [exact E|].
  split.
  - rewrite py_getitem_in_range by (rewrite !list_update_length; lia).
    apply f_equal. apply nth_list_update_same. rewrite !list_update_length. lia.
  - rewrite py_getitem_in_range by (rewrite !list_update_length; lia).
    apply f_equal. rewrite nth_list_update_other by lia.
    apply nth_list_update_same. rewrite list_update_length. lia.
Qed.

Lemma medium_policy_hits_midpoint_witness :
  exists row rng',
    generate_pattern "medium" 7 [0; 0; 0] (2 # 10) rng_zero = Ok (row, rng')
    /\ py_getitem 0 row 0 = Ok 1
    /\ py_getitem 0 row (7 / 2) = Ok 1.
Proof.
  apply (medium_policy_hits_midpoint 7 [0; 0; 0] (2 # 10) rng_zero).
  - lia.
  - discriminate.
Defined.





(** ** More on validation and timing *)

Lemma calc_beat_duration_ms_value bpm note_type subdivision nt :
  bpm <> 0 ->
  dict_getitem NOTE_TYPES note_type = Ok nt ->
  calc_beat_duration_ms bpm note_type subdivision
  = Ok (let beat_duration_ms := py_int (60000 / inject_Z bpm * nt)%Q in
        if (subdivision =? "triplet")%string
        then py_int (inject_Z (beat_duration_ms * 2) / 3)%Q
        else beat_duration_ms).
Proof.
  intros Hbpm Ent. unfold calc_beat_duration_ms. rewrite Ent.
  unfold py_truediv at 1.
  replace (Qeq_bool (inject_Z bpm) 0) with false.
  - cbn [rbind]. destruct (subdivision =? "triplet")%string; reflexivity.
  - symmetry. unfold Qeq_bool, inject_Z. simpl.
    destruct bpm; [congruence|reflexivity|reflexivity].
Qed.

Lemma calc_beat_duration_ms_range (bpm : Z) (note_type subdivision : string) :
  MIN_BPM <= bpm <= MAX_BPM ->
  dict_contains NOTE_TYPES note_type = true ->
  exists beat_duration_ms,
    calc_beat_duration_ms bpm note_type subdivision = Ok beat_duration_ms
    /\ 16 <= beat_duration_ms <= 12000
    /\ ((subdivision =? "triplet")%string = false -> 25 <= beat_duration_ms).
Proof.
  unfold MIN_BPM, MAX_BPM. intros Hbpm Hnt.
  destruct (note_type_lookup note_type Hnt) as (nt & Ent & Hin).
  rewrite (calc_beat_duration_ms_value bpm note_type subdivision nt ltac:(lia) Ent).
  eexists. split; [reflexivity|].
  assert (Hall :
    forallb (fun k =>
      forallb (fun nt =>
        forallb (fun triplet : bool =>
          let b := py_int (60000 / inject_Z (20 + Z.of_nat k) * nt)%Q in
          let r := if triplet then py_int (inject_Z (b * 2) / 3)%Q else b in
          ((if triplet then 16 else 25) <=? r) && (r <=? 12000)) [true; false])
        [4 # 1; 2 # 1; 1 # 1; 1 # 2; 1 # 4; 1 # 8]%Q)
      (seq 0 281) = true) by (vm_compute; reflexivity).
  rewrite forallb_forall in Hall.
  specialize (Hall (Z.to_nat (bpm - 20))).
  assert (Hk : In (Z.to_nat (bpm - 20)) (seq 0 281)) by (apply in_seq; lia).
  specialize (Hall Hk). rewrite forallb_forall in Hall.
  specialize (Hall nt Hin). rewrite forallb_forall in Hall.
  replace (20 + Z.of_nat (Z.to_nat (bpm - 20))) with bpm in Hall by lia.
  destruct (subdivision =? "triplet")%string.
  - specialize (Hall true (or_introl eq_refl)). cbv zeta in Hall.
    apply andb_true_iff in Hall as [H1 H2].
    apply Z.leb_le in H1. apply Z.leb_le in H2. cbv zeta.
    split; [lia|discriminate].
  - specialize (Hall false (or_intror (or_introl eq_refl))). cbv zeta in Hall.
    apply andb_true_iff in Hall as [H1 H2].
    apply Z.leb_le in H1. apply Z.leb_le in H2. cbv zeta. split; lia.
Qed.

(** A validated tempo and note type always give a usable beat: the
    straight beat lasts between 25 ms (300 bpm, thirty-second notes) and
    12000 ms (20 bpm, whole notes); the triplet beat is two thirds of it,
    rounded down, so at least 16 ms; any subdivision other than "triplet"
    counts as straight. *)
Theorem beat_duration_bounds (bpm : Z) (note_type subdivision : string) :
  MIN_BPM <= bpm <= MAX_BPM ->
  dict_contains NOTE_TYPES note_type = true ->
  exists straight,
    calc_beat_duration_ms bpm note_type "straight" = Ok straight
    /\ 25 <= straight <= 12000
    /\ calc_beat_duration_ms bpm note_type "triplet" = Ok (2 * straight / 3)
    /\ 16 <= 2 * straight / 3
    /\ calc_beat_duration_ms bpm note_type subdivision
       = Ok (if (subdivision =? "triplet")%string then 2 * straight / 3 else straight).
Proof.
  intros Hbpm Hnt.
  destruct (calc_beat_duration_ms_range bpm note_type "straight" Hbpm Hnt)
    as (straight & Es & Hs & Hlow).
  specialize (Hlow eq_refl).
  destruct (note_type_lookup note_type Hnt) as (nt & Ent & _).
  assert (Hnz : bpm <> 0) by (unfold MIN_BPM in Hbpm; lia).
  rewrite (calc_beat_duration_ms_value bpm note_type "straight" nt Hnz Ent) in Es.
  simpl String.eqb in Es. cbv zeta in Es. cbv iota in Es.
  assert (Hs' : py_int (60000 / inject_Z bpm * nt) = straight) by congruence.
  assert (Htrip : py_int (inject_Z (straight * 2) / 3) = 2 * straight / 3).
  { change (py_int (inject_Z (straight * 2) / 3)) with (Z.quot (straight * 2 * 1) 3).
    rewrite Z.quot_div_nonneg by lia. f_equal. lia. }
  exists straight.
  rewrite !(calc_beat_duration_ms_value bpm note_type _ nt Hnz Ent).
  simpl String.eqb. cbv zeta. cbv iota. rewrite Hs', Htrip.
  split; [reflexivity|]. split; [lia|]. split; [reflexivity|].
  split; [apply Z.div_le_lower_bound; lia|].
  destruct (subdivision =? "triplet")%string; reflexivity.
Qed.

Lemma beat_duration_bounds_witness :
  exists straight,
    calc_beat_duration_ms 77 "eighth" "straight" = Ok straight
    /\ 25 <= straight <= 12000
    /\ calc_beat_duration_ms 77 "eighth" "triplet" = Ok (2 * straight / 3)
    /\ 16 <= 2 * straight / 3
    /\ calc_beat_duration_ms 77 "eighth" "swung"
       = Ok (if ("swung" =? "triplet")%string then 2 * straight / 3 else straight).
Proof.
  apply (beat_duration_bounds 77 "eighth" "swung").
  - unfold MIN_BPM, MAX_BPM. lia.
  - reflexivity.
Defined.

(** Swing offsets: an even beat or a zero swing is never shifted; for a
    swing within [-50, 50] percent the offset of any beat is at most a
    quarter of the beat duration, in either direction. *)
Theorem apply_swing_bounded (beat_idx swing_percent beat_duration_ms : Z) :
  MIN_SWING <= swing_percent <= MAX_SWING ->
  0 <= beat_duration_ms ->
  (beat_idx mod 2 = 0 \/ swing_percent = 0 ->
     apply_swing beat_idx swing_percent beat_duration_ms = 0%Q)
  /\ (- (inject_Z beat_duration_ms / 4)
        <= apply_swing beat_idx swing_percent beat_duration_ms)%Q
  /\ (apply_swing beat_idx swing_percent beat_duration_ms
        <= inject_Z beat_duration_ms / 4)%Q.
Proof.
  unfold MIN_SWING, MAX_SWING. intros Hs Hb. unfold apply_swing.
  split.
  { intros [He|Hz].
    - rewrite He. simpl. now rewrite orb_true_r.
    - rewrite Hz. reflexivity. }
  destruct ((swing_percent =? 0) || (beat_idx mod 2 =? 0)).
  - unfold Qle, Qdiv, Qmult, Qinv, Qopp, inject_Z. simpl. split; lia.
  - unfold Qle, Qdiv, Qmult, Qinv, Qopp, inject_Z. simpl. split; nia.
Qed.

Lemma apply_swing_bounded_witness :
  (3 mod 2 = 0 \/ 20 = 0 -> apply_swing 3 20 500 = 0%Q)
  /\ (- (inject_Z 500 / 4) <= apply_swing 3 20 500)%Q
  /\ (apply_swing 3 20 500 <= inject_Z 500 / 4)%Q.
Proof.
  apply (apply_swing_bounded 3 20 500).
  - unfold MIN_SWING, MAX_SWING. lia.
  - lia.
Defined.

Lemma dict_contains_default {V : Type} (d : dict V) key fallback :
  dict_contains d fallback = true ->
  dict_contains d (if negb (dict_contains d key) then fallback else key) = true.
Proof. intros H. destruct (dict_contains d key) eqn:E; simpl; assumption. Qed.

Lemma list_contains_default l key fallback :
  list_contains fallback l = true ->
  list_contains (if negb (list_contains key l) then fallback else key) l = true.
Proof. intros H. destruct (list_contains key l) eqn:E; simpl; assumption. Qed.

(** Validation is a normal form: [generate_rhythm] run on raw inputs is
    [generate_rhythm] run on the validated ones, and the validated inputs
    are an unknown style replaced by pop, an out-of-range bpm by the style's
    default, an unknown note type by quarter, an unknown complexity by
    medium, a pattern length outside 4..16 by 8 and an unknown subdivision
    by straight. *)
Theorem generate_rhythm_on_validated_inputs
    (env : Environment) (style : string) (instruments : list string) (bpm : Z)
    (note_type : string) (swing : Z) (complexity : string) (volumes : dict Q)
    (pattern_length : Z) (time_signature subdivision : string)
    (fill_frequency master_volume : Q) (pan_settings : dict Q) (loop_repeats : Z)
    (rng : RandomState) :
  exists v,
    validate_inputs style bpm note_type swing complexity pattern_length
      time_signature subdivision = Ok v
    /\ validate_inputs (v_style v) (v_bpm v) (v_note_type v) (v_swing v)
         (v_complexity v) (v_pattern_length v) (v_time_signature v)
         (v_subdivision v) = Ok v
    /\ dict_contains STYLE_CONFIGS (v_style v) = true
    /\ MIN_BPM <= v_bpm v <= MAX_BPM
    /\ dict_contains NOTE_TYPES (v_note_type v) = true
    /\ In (v_complexity v) COMPLEXITY_LEVELS
    /\ 4 <= v_pattern_length v <= 16
    /\ In (v_subdivision v) SUBDIVISIONS
    /\ generate_rhythm env style instruments bpm note_type swing complexity volumes
         pattern_length time_signature subdivision fill_frequency master_volume
         pan_settings loop_repeats rng
       = generate_rhythm env (v_style v) instruments (v_bpm v) (v_note_type v)
           (v_swing v) (v_complexity v) volumes (v_pattern_length v)
           (v_time_signature v) (v_subdivision v) fill_frequency master_volume
           pan_settings loop_repeats rng.
Proof.
  destruct (style_lookup_total style) as (config & Ec & Hbpm & _).
  set (style' := if negb (dict_contains STYLE_CONFIGS style) then "pop" else style) in *.
  assert (Hstyle : dict_contains STYLE_CONFIGS style' = true).
  { unfold dict_contains. unfold dict_getitem in Ec.
    destruct (dict_get STYLE_CONFIGS style'); [reflexivity|discriminate]. }
  set (bpm' := if (bpm <? MIN_BPM) || (bpm >? MAX_BPM) then style_bpm config else bpm).
  assert (Hbpm' : MIN_BPM <= bpm' <= MAX_BPM).
  { subst bpm'. unfold MIN_BPM, MAX_BPM in *.
    destruct ((bpm <? 20) || (bpm >? 300)) eqn:E; [exact Hbpm|].
    apply orb_false_iff in E. rewrite Z.ltb_ge, Z.gtb_ltb, Z.ltb_ge in E. lia. }
  assert (Hbpmb : (bpm' <? MIN_BPM) || (bpm' >? MAX_BPM) = false).
  { apply orb_false_iff. rewrite Z.ltb_ge, Z.gtb_ltb, Z.ltb_ge. lia. }
  set (nt' := if negb (dict_contains NOTE_TYPES note_type) then "quarter" else note_type).
  assert (Hnt : dict_contains NOTE_TYPES nt' = true)
    by (apply dict_contains_default; reflexivity).
  set (swing' := if (swing <? MIN_SWING) || (swing >? MAX_SWING) then 0 else swing).
  assert (Hsw : (swing' <? MIN_SWING) || (swing' >? MAX_SWING) = false).
  { subst swing'. unfold MIN_SWING, MAX_SWING.
    destruct ((swing <? -50) || (swing >? 50)) eqn:E; [reflexivity|exact E]. }
  set (cx' := if negb (list_contains complexity COMPLEXITY_LEVELS)
              then "medium" else complexity).
  assert (Hcx : list_contains cx' COMPLEXITY_LEVELS = true)
    by (apply list_contains_default; reflexivity).
  set (pl' := if (pattern_length <? 4) || (pattern_length >? 16) then 8 else pattern_length).
  assert (Hpl : (pl' <? 4) || (pl' >? 16) = false).
  { subst pl'. destruct ((pattern_length <? 4) || (pattern_length >? 16)) eqn:E;
      [reflexivity|exact E]. }
  set (ts' := if negb (list_contains time_signature TIME_SIGNATURES)
              then "4/4" else time_signature).
  assert (Hts : list_contains ts' TIME_SIGNATURES = true)
    by (apply list_contains_default; reflexivity).
  set (sub' := if negb (list_contains subdivision SUBDIVISIONS)
               then "straight" else subdivision).
  assert (Hsub : list_contains sub' SUBDIVISIONS = true)
    by (apply list_contains_default; reflexivity).
  assert (E1 : validate_inputs style bpm note_type swing complexity pattern_length
                 time_signature subdivision
               = Ok (mkValidated style' bpm' nt' swing' cx' pl' ts' sub')).
  { unfold validate_inputs. fold style'. rewrite Ec. cbn [rbind].
    subst bpm'. destruct ((bpm <? MIN_BPM) || (bpm >? MAX_BPM)); reflexivity. }
  assert (E2 : validate_inputs style' bpm' nt' swing' cx' pl' ts' sub'
               = Ok (mkValidated style' bpm' nt' swing' cx' pl' ts' sub')).
  { unfold validate_inputs.
    rewrite Hstyle, Hbpmb, Hnt, Hsw, Hcx, Hpl, Hts, Hsub. reflexivity. }
  exists (mkValidated style' bpm' nt' swing' cx' pl' ts' sub'). cbn [v_style v_bpm
    v_note_type v_swing v_complexity v_pattern_length v_time_signature v_subdivision].
  split; [exact E1|]. split; [exact E2|]. split; [exact Hstyle|].
  split; [exact Hbpm'|]. split; [exact Hnt|].
  split; [now apply list_contains_In|].
  split.
  { apply orb_false_iff in Hpl. rewrite Z.ltb_ge, Z.gtb_ltb, Z.ltb_ge in Hpl. lia. }
  split; [now apply list_contains_In|].
  unfold generate_rhythm.
  rewrite (bind_ok _ _ _ _ _ (lift_ok _ _ rng E1)).
  rewrite (bind_ok _ _ _ _ _ (lift_ok _ _ rng E2)).
  reflexivity.
Qed.

(** The time signature, like the swing, reaches no output: two runs that
    differ in it only return the same loop, stems and patterns. *)
Theorem time_signature_has_no_effect
    (env : Environment) (style : string) (instruments : list string) (bpm : Z)
    (note_type : string) (swing : Z) (complexity : string) (volumes : dict Q)
    (pattern_length : Z) (time_signature1 time_signature2 subdivision : string)
    (fill_frequency master_volume : Q) (pan_settings : dict Q) (loop_repeats : Z)
    (rng : RandomState) :
  generate_rhythm env style instruments bpm note_type swing complexity volumes
    pattern_length time_signature1 subdivision fill_frequency master_volume
    pan_settings loop_repeats rng
  = generate_rhythm env style instruments bpm note_type swing complexity volumes
      pattern_length time_signature2 subdivision fill_frequency master_volume
      pan_settings loop_repeats rng.
Proof.
  unfold generate_rhythm.
  destruct (validate_inputs_total style bpm note_type swing complexity pattern_length
              time_signature1 subdivision)
    as (v1 & c1 & E1 & L1 & S1 & B1 & N1 & C1 & P1 & D1).
  destruct (validate_inputs_total style bpm note_type swing complexity pattern_length
              time_signature2 subdivision)
    as (v2 & c2 & E2 & L2 & S2 & B2 & N2 & C2 & P2 & D2).
  rewrite (bind_ok _ _ _ _ _ (lift_ok _ _ rng E1)).
  rewrite (bind_ok _ _ _ _ _ (lift_ok _ _ rng E2)).
  assert (Hc : c1 = c2).
  { rewrite S1 in L1. rewrite S2 in L2. congruence. }
  subst c2.
  rewrite S1, B1, N1, C1, P1, D1, S2, B2, N2, C2, P2, D2.
  reflexivity.
Qed.

(** ** The structure of a generated rhythm *)








(** Without instruments nothing is mixed: whatever the other inputs and the
    state of the sample directory, [generate_rhythm] returns the two-value
    result, a silent loop of the expected duration, and draws no random
    number. *)
Theorem no_instruments_gives_silent_loop
    (env : Environment) (style : string) (bpm : Z)
    (note_type : string) (swing : Z) (complexity : string) (volumes : dict Q)
    (pattern_length : Z) (time_signature subdivision : string)
    (fill_frequency master_volume : Q) (pan_settings : dict Q) (loop_repeats : Z)
    (rng : RandomState) :
  exists v beat_duration_ms,
    validate_inputs style bpm note_type swing complexity pattern_length
      time_signature subdivision = Ok v
    /\ calc_beat_duration_ms (v_bpm v) (v_note_type v) (v_subdivision v)
       = Ok beat_duration_ms
    /\ generate_rhythm env style [] bpm note_type swing complexity volumes
         pattern_length time_signature subdivision fill_frequency master_volume
         pan_settings loop_repeats rng
       = Ok (SilentLoop
               (create_silent_segment
                  (v_pattern_length v * beat_duration_ms * loop_repeats)), rng)
    /\ len (create_silent_segment
              (v_pattern_length v * beat_duration_ms * loop_repeats))
       = Z.max 0 (v_pattern_length v * beat_duration_ms * loop_repeats).
Proof.
  destruct (validate_inputs_total style bpm note_type swing complexity pattern_length
              time_signature subdivision)
    as (v & config & Ev & Lc & _).
  destruct (validated_fields_in_range _ _ _ _ _ _ _ _ v Ev)
    as (Hbpm & Hnt & _).
  destruct (calc_beat_duration_ms_total (v_bpm v) (v_note_type v) (v_subdivision v)
              Hbpm Hnt) as (b & Eb & Hb).
  exists v, b. split; [exact Ev|]. split; [exact Eb|]. split; [|reflexivity].
  unfold generate_rhythm.
  rewrite (bind_ok _ _ _ _ _ (lift_ok _ _ rng Ev)).
  rewrite (bind_ok _ _ _ _ _ (lift_ok _ _ rng Eb)).
  rewrite (bind_ok _ _ _ _ _ (lift_ok _ _ rng Lc)).
  reflexivity.
Qed.










(** ** More on the sample library *)

Lemma load_files_mono folder_path files :
  forall samples,
    Forall (fun s => channels s = 1) samples ->
    Forall (fun s => channels s = 1) (load_files folder_path files samples).
Proof.
  induction files as [|f files IH]; intros samples Hs; simpl; [assumption|].
  destruct (endswith (lower (file_name f)) ".wav"); [|now apply IH].
  destruct (file_wav f) as [[d c]|]; [|now apply IH].
  apply IH. apply Forall_app. split; [assumption|]. repeat constructor.
Qed.

(** Every buffer [load_samples] returns is single-channel, whether it was
    decoded from a file of any channel count or synthesised. *)
Theorem load_samples_buffers_mono (env : Environment) (instrument : string) :
  In instrument AVAILABLE_INSTRUMENTS ->
  folders_resolvable env = true ->
  exists samples,
    load_samples env instrument = Ok samples
    /\ Forall (fun s => channels s = 1) samples.
Proof.
  intros Hin Hres.
  destruct (load_samples_total env instrument Hin Hres) as (samples & E & Hcases).
  exists samples. split; [exact E|].
  destruct Hcases as [Hf|(fp & fs & first & rest & Hl & _)].
  - unfold synthetic_fallback in Hf.
    destruct (list_index instrument AVAILABLE_INSTRUMENTS); [|discriminate].
    simpl in Hf. inversion Hf. constructor; [|constructor].
    unfold generate_synthetic_tone. destruct (NUMPY_AVAILABLE env); reflexivity.
  - rewrite Hl. apply load_files_mono. constructor.
Qed.

Lemma load_samples_buffers_mono_witness :
  exists samples,
    load_samples env_mixed "kick" = Ok samples
    /\ Forall (fun s => channels s = 1) samples.
Proof.
  apply (load_samples_buffers_mono env_mixed "kick"); [simpl; tauto|reflexivity].
Defined.

(** Choosing a sample draws exactly one random number and returns one of
    the instrument's samples; only an empty sample list gives the 200 ms of
    silence, and then nothing is drawn. *)
Theorem choose_sample_picks_member (samples : list AudioSegment) (rng : RandomState) :
  (samples <> [] ->
     exists sample,
       choose_sample samples rng = Ok (sample, advance rng) /\ In sample samples)
  /\ choose_sample [] rng = Ok (create_silent_segment 200, rng).
Proof.
  split; [|reflexivity].
  intros Hne. destruct samples as [|s samples]; [congruence|].
  unfold choose_sample, random_choice. eexists. split; [reflexivity|].
  apply nth_In.
  pose proof (Z.mod_pos_bound (draws rng (cursor rng))
                (Z.of_nat (List.length (s :: samples))) ltac:(simpl; lia)).
  lia.
Qed.

(** ** More on the MIDI timeline *)

Lemma list_index_missing x l : ~ In x l -> list_index x l = Raise ValueError.
Proof.
  induction l as [|y l IH]; intros H; simpl; [reflexivity|].
  destruct (String.eqb_spec y x) as [->|Hne]; [exfalso; apply H; now left|].
  rewrite IH; [reflexivity|]. intros Hin. apply H. now right.
Qed.

Lemma collect_events_unsupported note_duration items :
  Exists (fun kv => ~ In (fst kv) AVAILABLE_INSTRUMENTS) items ->
  forall acc, collect_events note_duration items acc = Raise ValueError.
Proof.
  induction items as [|[inst pattern] items IH]; intros Hex acc; [inversion Hex|].
  cbn [collect_events].
  destruct (list_index inst AVAILABLE_INSTRUMENTS) as [idx|e] eqn:E.
  - cbn [rbind]. apply IH. inversion Hex as [? ? Hbad|? ? Hrest]; subst; [|assumption].
    cbn [fst] in Hbad.
    rewrite (list_index_missing inst AVAILABLE_INSTRUMENTS Hbad) in E. discriminate.
  - cbn [rbind]. clear IH Hex. revert e E.
    generalize AVAILABLE_INSTRUMENTS as l.
    induction l as [|y l IHl]; intros e E; simpl in E; [inversion E; reflexivity|].
    destruct (y =? inst)%string; [discriminate|].
    destruct (list_index inst l) as [i|e'] eqn:E'; simpl in E; [discriminate|].
    inversion E; subst. now apply IHl.
Qed.

(** How [generate_midi] fails.  Without the MIDI library nothing is
    exported; with it, and a tempo in range, a note type that is not a key
    of [NOTE_TYPES] ends the export with [KeyError], and a row whose
    instrument is not a supported one ends it with [ValueError]: in both
    cases no track is written. *)
Theorem generate_midi_failures
    (instrument_patterns : dict (list Z)) (pattern_length bpm : Z)
    (note_type subdivision : string) :
  MIN_BPM <= bpm <= MAX_BPM ->
  generate_midi false instrument_patterns pattern_length bpm note_type subdivision
    = MidiSkipped
  /\ (dict_contains NOTE_TYPES note_type = false ->
      generate_midi true instrument_patterns pattern_length bpm note_type subdivision
        = MidiFailed KeyError)
  /\ (dict_contains NOTE_TYPES note_type = true ->
      Exists (fun kv => ~ In (fst kv) AVAILABLE_INSTRUMENTS) instrument_patterns ->
      generate_midi true instrument_patterns pattern_length bpm note_type subdivision
        = MidiFailed ValueError).
Proof.
  intros Hbpm. split; [reflexivity|].
  destruct (tempo_message_total bpm Hbpm) as (tempo & Et).
  unfold generate_midi. simpl negb. cbv iota. rewrite Et. cbn [rbind].
  split.
  - unfold dict_contains, dict_getitem.
    destruct (dict_get NOTE_TYPES note_type); [discriminate|reflexivity].
  - intros Hnt Hex. destruct (note_type_lookup note_type Hnt) as (nt & Ent & _).
    rewrite Ent. cbn [rbind].
    rewrite (collect_events_unsupported _ _ Hex). reflexivity.
Qed.

Lemma generate_midi_failures_witness :
  generate_midi false [("kick", [1; 0]); ("drums", [1; 1])] 2 120 "dotted" "straight"
    = MidiSkipped
  /\ (dict_contains NOTE_TYPES "dotted" = false ->
      generate_midi true [("kick", [1; 0]); ("drums", [1; 1])] 2 120 "dotted" "straight"
        = MidiFailed KeyError)
  /\ (dict_contains NOTE_TYPES "dotted" = true ->
      Exists (fun kv => ~ In (fst kv) AVAILABLE_INSTRUMENTS)
        [("kick", [1; 0]); ("drums", [1; 1])] ->
      generate_midi true [("kick", [1; 0]); ("drums", [1; 1])] 2 120 "dotted" "straight"
        = MidiFailed ValueError).
Proof.
  apply (generate_midi_failures [("kick", [1; 0]); ("drums", [1; 1])] 2 120
           "dotted" "straight").
  unfold MIN_BPM, MAX_BPM. lia.
Defined.

(** Delta encoding loses nothing: summing the delta-times of the emitted
    messages from the starting tick restores the absolute tick of every
    event, in order. *)
Theorem emit_events_round_trip (events : list (Z * Message)) (last_time : Z) :
  absolute_ticks (emit_events events last_time) last_time = map fst events.
Proof.
  revert last_time. induction events as [|[t msg] events IH]; intros last_time;
    simpl; [reflexivity|].
  rewrite msg_time_with_time.
  replace (last_time + (t - last_time)) with t by lia.
  now rewrite IH.
Qed.

Lemma pattern_events_well_formed midi_note note_duration pattern :
  36 <= midi_note <= 44 ->
  forall i,
    Forall (fun e => well_formed_note (snd e) = true)
      (pattern_events midi_note note_duration i pattern).
Proof.
  intros Hn. induction pattern as [|hit pattern IH]; intros i; simpl; [constructor|].
  assert (Hb : (36 <=? midi_note) && (midi_note <=? 44) = true).
  { apply andb_true_iff. split; apply Z.leb_le; lia. }
  destruct (hit =? 0); [apply IH|].
  constructor; [simpl; now rewrite Hb|].
  constructor; [simpl; now rewrite Hb|apply IH].
Qed.

Lemma collect_events_well_formed note_duration items :
  forall acc events,
    collect_events note_duration items acc = Ok events ->
    Forall (fun e => well_formed_note (snd e) = true) acc ->
    Forall (fun e => well_formed_note (snd e) = true) events.
Proof.
  induction items as [|[inst pattern] items IH]; intros acc events H Hacc;
    cbn [collect_events] in H.
  - inversion H. now subst.
  - destruct (list_index inst AVAILABLE_INSTRUMENTS) as [idx|] eqn:E; [|discriminate].
    cbn [rbind] in H. eapply IH; [exact H|].
    apply Forall_app. split; [assumption|].
    apply pattern_events_well_formed.
    assert (Hin : In inst AVAILABLE_INSTRUMENTS).
    { destruct (in_dec string_dec inst AVAILABLE_INSTRUMENTS) as [Hi|Hn]; [exact Hi|].
      rewrite (list_index_missing _ _ Hn) in E. discriminate. }
    destruct (list_index_available inst Hin) as (idx' & E' & Hb).
    rewrite E in E'. inversion E'; subst. lia.
Qed.

Lemma insert_event_Forall (P : Z * Message -> Prop) e sorted :
  P e -> Forall P sorted -> Forall P (insert_event e sorted).
Proof.
  intros He Hs. induction Hs as [|h t Hh Ht IH]; simpl.
  - constructor; [assumption|constructor].
  - destruct (fst e <? fst h); repeat constructor; assumption.
Qed.

Lemma sort_events_Forall (P : Z * Message -> Prop) events :
  Forall P events -> Forall P (sort_events events).
Proof.
  unfold sort_events.
  assert (H : forall acc, Forall P events -> Forall P acc ->
             Forall P (fold_left (fun sorted e => insert_event e sorted) events acc)).
  { induction events as [|e events IH]; intros acc He Hacc; simpl; [assumption|].
    inversion He; subst. apply IH; [assumption|]. now apply insert_event_Forall. }
  intros He. apply H; [assumption|constructor].
Qed.

Lemma emit_events_well_formed events :
  forall last_time,
    Forall (fun e => well_formed_note (snd e) = true) events ->
    Forall (fun msg => well_formed_note msg = true) (emit_events events last_time).
Proof.
  induction events as [|[t msg] events IH]; intros last_time H; simpl; [constructor|].
  inversion H; subst. constructor; [|apply IH; assumption].
  simpl in *. destruct msg; assumption.
Qed.

Lemma emit_events_length events :
  forall last_time, List.length (emit_events events last_time) = List.length events.
Proof.
  induction events as [|[t msg] events IH]; intros last_time; simpl; [reflexivity|].
  now rewrite IH.
Qed.

Lemma insert_event_length e sorted :
  List.length (insert_event e sorted) = S (List.length sorted).
Proof.
  induction sorted as [|h t IH]; simpl; [reflexivity|].
  destruct (fst e <? fst h); simpl; [reflexivity|]. now rewrite IH.
Qed.

Lemma sort_events_length events :
  List.length (sort_events events) = List.length events.
Proof.
  unfold sort_events.
  assert (H : forall acc,
             List.length (fold_left (fun sorted e => insert_event e sorted) events acc)
             = (List.length events + List.length acc)%nat).
  { induction events as [|e events IH]; intros acc; simpl; [reflexivity|].
    rewrite IH, insert_event_length. lia. }
  rewrite H. simpl. lia.
Qed.

Lemma pattern_events_length midi_note note_duration pattern :
  forall i,
    List.length (pattern_events midi_note note_duration i pattern)
    = (2 * row_hits pattern)%nat.
Proof.
  induction pattern as [|hit pattern IH]; intros i; simpl; [reflexivity|].
  unfold row_hits in *. simpl. destruct (hit =? 0); simpl; rewrite IH; lia.
Qed.

Lemma collect_events_length note_duration items :
  forall acc events,
    collect_events note_duration items acc = Ok events ->
    List.length events = (List.length acc + 2 * total_hits items)%nat.
Proof.
  induction items as [|[inst pattern] items IH]; intros acc events H;
    cbn [collect_events] in H.
  - inversion H. unfold total_hits. simpl. lia.
  - destruct (list_index inst AVAILABLE_INSTRUMENTS) as [idx|]; [|discriminate].
    cbn [rbind] in H. apply IH in H. rewrite H, length_app, pattern_events_length.
    change (total_hits ((inst, pattern) :: items))
      with (row_hits pattern + total_hits items)%nat. lia.
Qed.

(** The written track: one tempo message at delta-time 0, then exactly two
    note messages per hit, each a drum-map note 36..44 struck at velocity
    100 or released at velocity 0. *)
Theorem generate_midi_track_shape
    (instrument_patterns : dict (list Z)) (pattern_length bpm : Z)
    (note_type subdivision : string) :
  MIN_BPM <= bpm <= MAX_BPM ->
  dict_contains NOTE_TYPES note_type = true ->
  Forall (fun kv => In (fst kv) AVAILABLE_INSTRUMENTS) instrument_patterns ->
  exists tempo notes,
    generate_midi true instrument_patterns pattern_length bpm note_type subdivision
      = MidiSaved (set_tempo tempo 0 :: notes)
    /\ List.length notes = (2 * total_hits instrument_patterns)%nat
    /\ Forall (fun msg => well_formed_note msg = true) notes.
Proof.
  intros Hbpm Hnt Hinst. unfold generate_midi. simpl negb. cbv iota.
  destruct (tempo_message_total bpm Hbpm) as (tempo & Et).
  destruct (note_type_lookup note_type Hnt) as (nt & Ent & Hin).
  pose proof (note_duration_nonneg nt subdivision Hin) as Hd.
  rewrite Et, Ent. cbn [rbind].
  destruct (collect_events_total _ instrument_patterns Hd Hinst [])
    as (events & Ee & _); [constructor|].
  rewrite Ee. cbn [rbind].
  exists tempo. eexists. split; [reflexivity|]. split.
  - rewrite emit_events_length, sort_events_length.
    rewrite (collect_events_length _ _ _ _ Ee). simpl. lia.
  - apply emit_events_well_formed. apply sort_events_Forall.
    eapply collect_events_well_formed; [exact Ee|constructor].
Qed.

Lemma generate_midi_track_shape_witness :
  exists tempo notes,
    generate_midi true [("clap", [1; 1; 0; 1]); ("bass", [0; 0; 0; 0])] 4 96
      "sixteenth" "triplet" = MidiSaved (set_tempo tempo 0 :: notes)
    /\ List.length notes = 6%nat
    /\ Forall (fun msg => well_formed_note msg = true) notes.
Proof.
  apply (generate_midi_track_shape [("clap", [1; 1; 0; 1]); ("bass", [0; 0; 0; 0])]
           4 96 "sixteenth" "triplet").
  - unfold MIN_BPM, MAX_BPM. lia.
  - reflexivity.
  - repeat constructor; simpl; tauto.
Defined.

(** ** Export *)




(** When the loop file cannot be written the export stops there: no stem
    and no MIDI file is written either. *)
Theorem export_stops_when_loop_write_fails
    (xenv : ExportEnvironment) (loop : AudioSegment)
    (instrument_stems : dict AudioSegment) (instrument_patterns : dict (list Z))
    (style : string) (bpm : Z) (note_type : string) (pattern_length : Z)
    (output_format : string) (export_stems export_midi : bool)
    (project_name : string) (loop_repeats : Z) (subdivision : string) :
  can_write xenv (snd (export_target xenv project_name style output_format)) = false ->
  export_rhythm xenv loop instrument_stems instrument_patterns style bpm note_type
    pattern_length output_format export_stems export_midi project_name loop_repeats
    subdivision = [].
Proof.
  intros H. unfold export_rhythm.
  destruct (export_target xenv project_name style output_format) as [fmt name].
  simpl in H. rewrite H. reflexivity.
Qed.

Lemma export_stops_when_loop_write_fails_witness :
  export_rhythm (mkExportEnv true true "20250101_120000" (fun _ => false))
    (Tone 200 200) [("kick", Tone 200 200)] [("kick", [1; 0; 1; 0])]
    "pop" 120 "quarter" 4 "mp3" true true "demo" 2 "straight" = [].
Proof.
  apply export_stops_when_loop_write_fails. reflexivity.
Defined.



(** ** The run of [main] *)

Lemma validate_instruments_ok instruments volumes pan_settings :
  fst (fst (validate_instruments instruments volumes pan_settings)) <> []
  /\ Forall (fun inst => In inst AVAILABLE_INSTRUMENTS)
       (fst (fst (validate_instruments instruments volumes pan_settings))).
Proof.
  unfold validate_instruments.
  destruct (filter _ instruments) as [|i rest] eqn:E.
  - split; [discriminate|]. cbn [fst]. repeat constructor; simpl; tauto.
  - cbn [fst]. split; [discriminate|]. rewrite <- E.
    apply Forall_forall. intros x Hx. apply filter_In in Hx as [_ Hx].
    now apply list_contains_In.
Qed.

(** Filtering the instruments: what [main] hands to [generate_rhythm] is
    never empty and holds supported instruments only; the supported ones of
    the configuration in their order when there is one, else kick and snare
    at the default volume, centred. *)
Theorem validate_instruments_supported
    (instruments : list string) (volumes pan_settings : dict Q) :
  fst (fst (validate_instruments instruments volumes pan_settings)) <> []
  /\ Forall (fun inst => In inst AVAILABLE_INSTRUMENTS)
       (fst (fst (validate_instruments instruments volumes pan_settings)))
  /\ ((exists inst, In inst instruments /\ In inst AVAILABLE_INSTRUMENTS) ->
      validate_instruments instruments volumes pan_settings
      = (filter (fun i => list_contains i AVAILABLE_INSTRUMENTS) instruments,
         volumes, pan_settings))
  /\ ((forall inst, In inst instruments -> ~ In inst AVAILABLE_INSTRUMENTS) ->
      validate_instruments instruments volumes pan_settings
      = (["kick"; "snare"], [("kick", DEFAULT_VOLUME); ("snare", DEFAULT_VOLUME)],
         [("kick", 0%Q); ("snare", 0%Q)])).
Proof.
  destruct (validate_instruments_ok instruments volumes pan_settings) as [Hne Hall].
  split; [exact Hne|]. split; [exact Hall|].
  unfold validate_instruments. split.
  - intros (inst & Hin & Hsup).
    destruct (filter _ instruments) as [|i rest] eqn:E; [|reflexivity].
    assert (Hf : In inst (filter (fun i => list_contains i AVAILABLE_INSTRUMENTS)
                            instruments)).
    { apply filter_In. split; [exact Hin|].
      unfold list_contains. apply existsb_exists. exists inst.
      split; [exact Hsup|apply String.eqb_refl]. }
    rewrite E in Hf. destruct Hf.
  - intros Hnone.
    destruct (filter _ instruments) as [|i rest] eqn:E; [reflexivity|].
    assert (Hf : In i (filter (fun i => list_contains i AVAILABLE_INSTRUMENTS)
                         instruments)) by (rewrite E; now left).
    apply filter_In in Hf as [Hin Hsup]. apply list_contains_In in Hsup.
    destruct (Hnone i Hin Hsup).
Qed.










